(** * The bookmark synchronisation engine of [BookmarkClient]

    A shallow embedding of the client component of the smart-bookmark
    application ([BookmarkClient.tsx]): the React state of the component,
    the two realtime callbacks registered on the [postgres_changes] channel,
    and the two asynchronous handlers [handleAddBookmark] and [handleDelete].

    - JavaScript strings are sequences of UTF-16 code units ([list N]);
      [===] on strings is equality of these sequences.
    - The component state is a record; every [setX] call of the source is a
      state transformer, and the functional updaters handed to
      [setBookmarks] are kept as functions of the previous list.
    - An [async] handler is a finite tree of state updates and [await]
      points; the answer of the backend is fed to the continuation.  A run
      can deliver realtime events while a request is in flight. *)

From Stdlib Require Import List Bool NArith ZArith Lia String Ascii Sorted.
From Stdlib Require Import Permutation.
Import ListNotations.

Set Implicit Arguments.

(** ** JavaScript strings *)

Definition jsstring : Type := list N.

(** A string literal of the source, written with ASCII characters. *)
Definition js (s : string) : jsstring :=
  map N_of_ascii (list_ascii_of_string s).

Module JsString.

(** [a === b] on two strings. *)
Fixpoint eqb (a b : jsstring) : bool :=
  match a, b with
  | [], [] => true
  | x :: a', y :: b' => N.eqb x y && eqb a' b'
  | _, _ => false
  end.

(** WhiteSpace and LineTerminator code points of ECMAScript, the ones
    [String.prototype.trim] strips. *)
Definition isWhiteSpace (c : N) : bool :=
  ((9 <=? c) && (c <=? 13)
   || (c =? 32) || (c =? 160) || (c =? 5760)
   || ((8192 <=? c) && (c <=? 8202))
   || (c =? 8232) || (c =? 8233) || (c =? 8239) || (c =? 8287)
   || (c =? 12288) || (c =? 65279))%N.

Fixpoint trimStart (s : jsstring) : jsstring :=
  match s with
  | [] => []
  | c :: s' => if isWhiteSpace c then trimStart s' else s
  end.

Definition trimEnd (s : jsstring) : jsstring := rev (trimStart (rev s)).

Definition trim (s : jsstring) : jsstring := trimEnd (trimStart s).

(** [!s] for a string [s]: only the empty string is falsy. *)
Definition not (s : jsstring) : bool :=
  match s with [] => true | _ :: _ => false end.

End JsString.

(** ** Data model *)

Module Bookmark.
Record t : Type := mk
  { id : jsstring;
    user_id : jsstring;
    title : jsstring;
    url : jsstring;
    created_at : jsstring }.
End Bookmark.

Module User.
Record t : Type := mk
  { id : jsstring;
    email : jsstring;
    name : jsstring }.
End User.

(** The object handed to [.insert(...)]. *)
Module NewRow.
Record t : Type := mk
  { title : jsstring;
    url : jsstring;
    user_id : jsstring }.
End NewRow.

(** What the Postgrest client resolves to: [{ data, error }]. *)
Module Postgrest.
Record Error : Type := mkError { message : jsstring }.

Record Response (A : Type) : Type := mk
  { data : option A;
    error : option Error }.

(** [.order(column, { ascending })] *)
Record Order : Type := mkOrder
  { column : jsstring;
    ascending : bool }.
End Postgrest.

(** The result of [new URL(s)].  [handleAddBookmark] only looks at whether
    the constructor returns or throws; [protocol] is kept to speak about
    schemes. *)
Module URL.
Record t : Type := mk { protocol : jsstring }.
End URL.

(** The URL constructor of the platform: [Some] when [new URL(s)] returns,
    [None] when it throws. *)
Class Platform : Type :=
  { URL_new : jsstring -> option URL.t }.

(** ** Component state: the [useState] cells of [BookmarkClient] *)

Record State : Type := mkState
  { bookmarks : list Bookmark.t;
    title : jsstring;
    url : jsstring;
    submitting : bool;
    error : option jsstring;
    deletingId : option jsstring }.

Definition setBookmarks (upd : list Bookmark.t -> list Bookmark.t)
  (st : State) : State :=
  mkState (upd (bookmarks st)) (title st) (url st) (submitting st)
    (error st) (deletingId st).

Definition setTitle (v : jsstring) (st : State) : State :=
  mkState (bookmarks st) v (url st) (submitting st) (error st)
    (deletingId st).

Definition setUrl (v : jsstring) (st : State) : State :=
  mkState (bookmarks st) (title st) v (submitting st) (error st)
    (deletingId st).

Definition setSubmitting (v : bool) (st : State) : State :=
  mkState (bookmarks st) (title st) (url st) v (error st) (deletingId st).

Definition setError (v : option jsstring) (st : State) : State :=
  mkState (bookmarks st) (title st) (url st) (submitting st) v
    (deletingId st).

Definition setDeletingId (v : option jsstring) (st : State) : State :=
  mkState (bookmarks st) (title st) (url st) (submitting st) (error st) v.

(** [useState(initialBookmarks)] and the other initial cells. *)
Definition initialState (initialBookmarks : list Bookmark.t) : State :=
  mkState initialBookmarks [] [] false None None.

(** ** The updaters handed to [setBookmarks] *)

(** INSERT callback: [prev.some(b => b.id === newBookmark.id) ? prev
    : [newBookmark, ...prev]]. *)
Definition insertIfAbsent (newBookmark : Bookmark.t)
  (prev : list Bookmark.t) : list Bookmark.t :=
  if existsb (fun b => JsString.eqb (Bookmark.id b) (Bookmark.id newBookmark))
       prev
  then prev
  else newBookmark :: prev.

(** DELETE callback and optimistic removal:
    [prev.filter(b => b.id !== id)]. *)
Definition removeById (id : jsstring) (prev : list Bookmark.t)
  : list Bookmark.t :=
  filter (fun b => negb (JsString.eqb (Bookmark.id b) id)) prev.

(** Create success in [handleAddBookmark]: [[data, ...prev]]. *)
Definition prepend (data : Bookmark.t) (prev : list Bookmark.t)
  : list Bookmark.t :=
  data :: prev.

(** Resync in [handleDelete]: [setBookmarks(data)]. *)
Definition replaceAll (data : list Bookmark.t) (_ : list Bookmark.t)
  : list Bookmark.t :=
  data.

(** ** Realtime subscription *)

Inductive EventType : Type := INSERT | DELETE.

(** A [postgres_changes] payload: [payload.new] of an INSERT, [payload.old]
    of a DELETE. *)
Record Payload : Type := mkPayload
  { eventType : EventType;
    record : Bookmark.t }.

(** The second argument of [.on("postgres_changes", ...)]. *)
Record ChangeFilter : Type := mkChangeFilter
  { event : EventType;
    schema : jsstring;
    table : jsstring;
    filter_ : jsstring }.

Record Binding : Type := mkBinding
  { changes : ChangeFilter;
    callback : Payload -> State -> State }.

Definition onInsert (payload : Payload) : State -> State :=
  let newBookmark := record payload in
  setBookmarks (insertIfAbsent newBookmark).

Definition onDelete (payload : Payload) : State -> State :=
  setBookmarks (removeById (Bookmark.id (record payload))).

(** The channel built in the subscription effect: two bindings, both with
    the filter [user_id=eq.${user.id}]. *)
Definition channel (user : User.t) : list Binding :=
  [ mkBinding
      (mkChangeFilter INSERT (js "public") (js "bookmarks")
         (js "user_id=eq." ++ User.id user))
      onInsert;
    mkBinding
      (mkChangeFilter DELETE (js "public") (js "bookmarks")
         (js "user_id=eq." ++ User.id user))
      onDelete ].

(** The realtime server decides which bindings of a channel an event is
    streamed to. *)
Class Realtime : Type :=
  { streams : ChangeFilter -> Payload -> bool }.

(** Delivery of one event to a channel: every binding the server streams the
    event to runs its callback. *)
Definition deliver `{Realtime} (ch : list Binding) (payload : Payload)
  (st : State) : State :=
  fold_left
    (fun acc b =>
       if streams (changes b) payload then callback b payload acc else acc)
    ch st.

(** A server honours the filter of a binding when an event it streams to a
    binding filtered by [user_id=eq.owner] carries a row of that owner. *)
Definition honoursFilter `{Realtime} : Prop :=
  forall (f : ChangeFilter) (p : Payload) (owner : jsstring),
    filter_ f = js "user_id=eq." ++ owner ->
    streams f p = true ->
    Bookmark.user_id (record p) = owner.

(** ** Asynchronous handlers *)

Definition InsertResponse : Type := Postgrest.Response Bookmark.t.
Definition DeleteResponse : Type := Postgrest.Response unit.
Definition SelectResponse : Type := Postgrest.Response (list Bookmark.t).

(** [DashboardPage]: the list the component is mounted with is the answer
    of the first fetch (ordered by [created_at] descending), or the empty
    list: [initialBookmarks={bookmarks ?? []}]. *)
Definition initialBookmarks (answer : SelectResponse) : list Bookmark.t :=
  match Postgrest.data answer with
  | Some bookmarks => bookmarks
  | None => []
  end.

(** A handler is a finite sequence of state updates interrupted by [await]
    points on the three requests the component sends. *)
Inductive Handler : Type :=
| Return : Handler
| Update : (State -> State) -> Handler -> Handler
| AwaitInsert : NewRow.t -> (InsertResponse -> Handler) -> Handler
| AwaitDelete : jsstring -> (DeleteResponse -> Handler) -> Handler
| AwaitSelect : Postgrest.Order -> (SelectResponse -> Handler) -> Handler.

Notation "f ;; k" := (Update f k) (at level 61, right associativity).

Section Handlers.

Context `{Platform}.

(** [handleAddBookmark]; [title] and [url] are the values of the render
    the handler was created in. *)
Definition handleAddBookmark (user : User.t) (title url : jsstring)
  : Handler :=
  setSubmitting true ;;
  setError None ;;
  let trimmedUrl := JsString.trim url in
  let trimmedTitle := JsString.trim title in
  if JsString.not trimmedTitle || JsString.not trimmedUrl then
    setError (Some (js "Both title and URL are required.")) ;;
    setSubmitting false ;;
    Return
  else
    match URL_new trimmedUrl with
    | None =>
        setError
          (Some (js "Please enter a valid URL (e.g. https://example.com).")) ;;
        setSubmitting false ;;
        Return
    | Some _ =>
        AwaitInsert (NewRow.mk trimmedTitle trimmedUrl (User.id user))
          (fun response =>
             match Postgrest.error response with
             | Some insertError =>
                 setError (Some (Postgrest.message insertError)) ;;
                 setSubmitting false ;;
                 Return
             | None =>
                 match Postgrest.data response with
                 | Some data =>
                     setBookmarks (prepend data) ;;
                     setTitle [] ;;
                     setUrl [] ;;
                     setSubmitting false ;;
                     Return
                 | None =>
                     setSubmitting false ;;
                     Return
                 end
             end)
    end.

(** [handleDelete] *)
Definition handleDelete (id : jsstring) : Handler :=
  setDeletingId (Some id) ;;
  setBookmarks (removeById id) ;;
  AwaitDelete id
    (fun response =>
       match Postgrest.error response with
       | Some deleteError =>
           setError (Some (Postgrest.message deleteError)) ;;
           AwaitSelect (Postgrest.mkOrder (js "created_at") false)
             (fun refetch =>
                match Postgrest.data refetch with
                | Some data =>
                    setBookmarks (replaceAll data) ;;
                    setDeletingId None ;;
                    Return
                | None =>
                    setDeletingId None ;;
                    Return
                end)
       | None =>
           setDeletingId None ;;
           Return
       end).

End Handlers.

(** ** Running a handler *)

Inductive Request : Type :=
| InsertRequest : NewRow.t -> Request
| DeleteRequest : jsstring -> Request
| SelectRequest : Postgrest.Order -> Request.

(** Where a handler stands once its synchronous prefix has run. *)
Inductive Suspended : Type :=
| Finished : Suspended
| OnInsert : NewRow.t -> (InsertResponse -> Handler) -> Suspended
| OnDelete : jsstring -> (DeleteResponse -> Handler) -> Suspended
| OnSelect : Postgrest.Order -> (SelectResponse -> Handler) -> Suspended.

(** Runs a handler up to its next [await]. *)
Fixpoint runSync (h : Handler) (st : State) : State * Suspended :=
  match h with
  | Return => (st, Finished)
  | Update f k => runSync k (f st)
  | AwaitInsert row k => (st, OnInsert row k)
  | AwaitDelete id k => (st, OnDelete id k)
  | AwaitSelect order k => (st, OnSelect order k)
  end.

Definition pending (s : Suspended) : option Request :=
  match s with
  | Finished => None
  | OnInsert row _ => Some (InsertRequest row)
  | OnDelete id _ => Some (DeleteRequest id)
  | OnSelect order _ => Some (SelectRequest order)
  end.

(** The world a handler runs in: the answers of the backend, and the state
    changes made by other tasks (realtime callbacks) while a request is in
    flight. *)
Record World : Type := mkWorld
  { insertAnswer : NewRow.t -> InsertResponse;
    deleteAnswer : jsstring -> DeleteResponse;
    selectAnswer : Postgrest.Order -> SelectResponse;
    inFlight : Request -> State -> State }.

(** Runs a handler to completion; the result is the final state and the
    requests that were sent, in order. *)
Fixpoint run (w : World) (h : Handler) (st : State) : State * list Request :=
  match h with
  | Return => (st, [])
  | Update f k => run w k (f st)
  | AwaitInsert row k =>
      let r := InsertRequest row in
      let (st', sent) := run w (k (insertAnswer w row)) (inFlight w r st) in
      (st', r :: sent)
  | AwaitDelete id k =>
      let r := DeleteRequest id in
      let (st', sent) := run w (k (deleteAnswer w id)) (inFlight w r st) in
      (st', r :: sent)
  | AwaitSelect order k =>
      let r := SelectRequest order in
      let (st', sent) := run w (k (selectAnswer w order)) (inFlight w r st) in
      (st', r :: sent)
  end.

(** A world in which nothing else happens while a request is in flight. *)
Definition quiet (w : World) : Prop :=
  forall (r : Request) (st : State), inFlight w r st = st.

(** ** The store as a sequence of updates *)

(** The five places of the component that change [bookmarks]. *)
Inductive StoreOp : Type :=
| CreateSucceeded : Bookmark.t -> StoreOp
| FeedInsert : Bookmark.t -> StoreOp
| FeedDelete : jsstring -> StoreOp
| OptimisticRemove : jsstring -> StoreOp
| Resync : list Bookmark.t -> StoreOp.

Definition applyOp (op : StoreOp) : list Bookmark.t -> list Bookmark.t :=
  match op with
  | CreateSucceeded data => prepend data
  | FeedInsert newBookmark => insertIfAbsent newBookmark
  | FeedDelete id => removeById id
  | OptimisticRemove id => removeById id
  | Resync data => replaceAll data
  end.

Definition applyOps (ops : list StoreOp) (init : list Bookmark.t)
  : list Bookmark.t :=
  fold_left (fun store op => applyOp op store) ops init.

(** [admissible ok ops store]: every operation of [ops] satisfies [ok] in
    the store it is applied to. *)
Fixpoint admissible (ok : list Bookmark.t -> StoreOp -> Prop)
  (ops : list StoreOp) (store : list Bookmark.t) : Prop :=
  match ops with
  | [] => True
  | op :: ops' => ok store op /\ admissible ok ops' (applyOp op store)
  end.

Definition ids (store : list Bookmark.t) : list jsstring :=
  map Bookmark.id store.

(** No two entries share an [id]. *)
Definition uniqueIds (store : list Bookmark.t) : Prop := NoDup (ids store).

Definition hasId (id : jsstring) (store : list Bookmark.t) : Prop :=
  In id (ids store).

(** The operations of the uniqueness invariant: any of the five, a resync
    bringing a duplicate-free list (the rows of a table keyed by [id]). *)
Inductive anyOp : list Bookmark.t -> StoreOp -> Prop :=
| any_create : forall store data, anyOp store (CreateSucceeded data)
| any_feed_insert : forall store b, anyOp store (FeedInsert b)
| any_feed_delete : forall store id, anyOp store (FeedDelete id)
| any_optimistic : forall store id, anyOp store (OptimisticRemove id)
| any_resync : forall store data, uniqueIds data -> anyOp store (Resync data).

(** The same, a create response arriving only for an id the store does not
    hold yet. *)
Inductive freshCreateOp : list Bookmark.t -> StoreOp -> Prop :=
| fresh_create : forall store data,
    ~ hasId (Bookmark.id data) store ->
    freshCreateOp store (CreateSucceeded data)
| fresh_feed_insert : forall store b, freshCreateOp store (FeedInsert b)
| fresh_feed_delete : forall store id, freshCreateOp store (FeedDelete id)
| fresh_optimistic : forall store id,
    freshCreateOp store (OptimisticRemove id)
| fresh_resync : forall store data,
    uniqueIds data -> freshCreateOp store (Resync data).

Section Ordering.

(** The instant a [created_at] text denotes, as the database orders it. *)
Variable instant : jsstring -> Z.

Definition newerOrEqual (a b : Bookmark.t) : Prop :=
  (instant (Bookmark.created_at b) <= instant (Bookmark.created_at a))%Z.

(** Newest first. *)
Definition sortedDesc (store : list Bookmark.t) : Prop :=
  Sorted newerOrEqual store.

(** Create responses carrying a row at least as new as every row held,
    and resyncs bringing a list ordered by [created_at] descending. *)
Inductive createOrResync : list Bookmark.t -> StoreOp -> Prop :=
| cr_create : forall store data,
    Forall (newerOrEqual data) store ->
    createOrResync store (CreateSucceeded data)
| cr_resync : forall store data,
    sortedDesc data -> createOrResync store (Resync data).

End Ordering.

(** ** Small instances, to evaluate the component on examples *)

Module Sample.

(** ASCII letters, digits, and the three signs a URL scheme may hold. *)
Definition isAlpha (c : N) : bool :=
  ((65 <=? c) && (c <=? 90) || (97 <=? c) && (c <=? 122))%N.

Definition isSchemeChar (c : N) : bool :=
  (isAlpha c || (48 <=? c) && (c <=? 57)
   || (c =? 43) || (c =? 45) || (c =? 46))%N.

Definition toLower (c : N) : N :=
  if ((65 <=? c) && (c <=? 90))%N then (c + 32)%N else c.

(** Reads [scheme ":"] at the head of a string. *)
Fixpoint schemeRest (s acc : jsstring) : option jsstring :=
  match s with
  | [] => None
  | c :: s' =>
      if (c =? 58)%N then Some (rev (58%N :: acc))
      else if isSchemeChar c then schemeRest s' (toLower c :: acc)
      else None
  end.

Definition parseScheme (s : jsstring) : option URL.t :=
  match s with
  | c :: s' =>
      if isAlpha c then
        option_map URL.mk (schemeRest s' [toLower c])
      else None
  | [] => None
  end.

(** A platform whose URL constructor accepts the strings that begin with
    a scheme and a colon.  (The WHATWG parser is stricter on the special
    schemes; the theorems are stated for every platform.) *)
Definition schemePlatform : Platform := {| URL_new := parseScheme |}.

(** A realtime server that streams an event to a binding when the event
    type is the binding's and the filter reads [user_id=eq.] followed by
    the [user_id] of the row. *)
Definition eventTypeEqb (a b : EventType) : bool :=
  match a, b with
  | INSERT, INSERT | DELETE, DELETE => true
  | _, _ => false
  end.

Definition filteringRealtime : Realtime :=
  {| streams := fun f p =>
       eventTypeEqb (event f) (eventType p)
       && JsString.eqb (filter_ f)
            (js "user_id=eq." ++ Bookmark.user_id (record p)) |}.

(** Timestamps compared as base-65536 numerals of their code units. *)
Definition numeral (s : jsstring) : Z :=
  fold_left (fun acc c => (acc * 65536 + Z.of_N c)%Z) s 0%Z.

Definition alice : User.t :=
  User.mk (js "u1") (js "alice@example.com") (js "Alice").

Definition a1 : Bookmark.t :=
  Bookmark.mk (js "a1") (js "u1") (js "Docs")
    (js "https://example.com/docs") (js "2024-05-02T10:00:00Z").

Definition b2 : Bookmark.t :=
  Bookmark.mk (js "b2") (js "u1") (js "News")
    (js "https://example.com/news") (js "2024-05-01T09:00:00Z").

(** A row of another owner. *)
Definition z9 : Bookmark.t :=
  Bookmark.mk (js "z9") (js "u2") (js "Other")
    (js "https://example.org/") (js "2024-05-03T08:00:00Z").

(** A backend on which every request succeeds, the insert returning
    [a1]; nothing happens in flight. *)
Definition succeeding : World :=
  mkWorld
    (fun _ => Postgrest.mk (Some a1) None)
    (fun _ => Postgrest.mk None None)
    (fun _ => Postgrest.mk (Some [a1; b2]) None)
    (fun _ st => st).

(** The same backend, the realtime echo of the inserted row being
    delivered before the response of the insert is handled. *)
Definition echoFirst : World :=
  mkWorld
    (fun _ => Postgrest.mk (Some a1) None)
    (fun _ => Postgrest.mk None None)
    (fun _ => Postgrest.mk (Some [a1; b2]) None)
    (fun r st =>
       match r with
       | InsertRequest _ => onInsert (mkPayload INSERT a1) st
       | _ => st
       end).

Definition denied : Postgrest.Error :=
  Postgrest.mkError (js "permission denied").

(** A backend that rejects inserts and deletes; the refetch succeeds. *)
Definition failing : World :=
  mkWorld
    (fun _ => Postgrest.mk None (Some denied))
    (fun _ => Postgrest.mk None (Some denied))
    (fun _ => Postgrest.mk (Some [a1; b2]) None)
    (fun _ st => st).

(** A backend that rejects deletes and fails the refetch as well. *)
Definition offline : World :=
  mkWorld
    (fun _ => Postgrest.mk None (Some denied))
    (fun _ => Postgrest.mk None (Some denied))
    (fun _ => Postgrest.mk None (Some denied))
    (fun _ st => st).

End Sample.

(** ** The rest of the component: [getDomain], the rendered view *)

(** [s.startsWith(pat)] *)
Fixpoint startsWith (pat s : jsstring) : bool :=
  match pat, s with
  | [], _ => true
  | _ :: _, [] => false
  | p :: pat', c :: s' => N.eqb p c && startsWith pat' s'
  end.

(** [s.replace(pat, rep)] with a string pattern: the first occurrence of
    [pat], scanning from the left, is replaced; [rep] is taken literally
    (it holds no [$] in the component). *)
Fixpoint replaceString (pat rep s : jsstring) : jsstring :=
  if startsWith pat s then rep ++ skipn (List.length pat) s
  else
    match s with
    | [] => []
    | c :: s' => c :: replaceString pat rep s'
    end.

(** [new URL(rawUrl).hostname]: [None] when the constructor throws. *)
Class Hostnames : Type :=
  { URL_hostname : jsstring -> option jsstring }.

(** [new Date(iso).toLocaleDateString("en-US", { year: "numeric",
    month: "short", day: "numeric" })] *)
Class Dates : Type :=
  { toLocaleDateString : jsstring -> jsstring }.

Section Rendering.

Context `{Hostnames} `{Dates}.

Definition formatDate (iso : jsstring) : jsstring := toLocaleDateString iso.

(** [getDomain]: the hostname without its first ["www."], the raw string
    when it is no URL. *)
Definition getDomain (rawUrl : jsstring) : jsstring :=
  match URL_hostname rawUrl with
  | Some hostname => replaceString (js "www.") [] hostname
  | None => rawUrl
  end.

(** [deletingId === bookmark.id] *)
Definition isDeleting (deletingId : option jsstring) (id : jsstring) : bool :=
  match deletingId with
  | Some d => JsString.eqb d id
  | None => false
  end.

(** One [<li>] of the list. *)
Record Item : Type := mkItem
  { key : jsstring;
    favicon : jsstring;
    href : jsstring;
    heading : jsstring;
    location : jsstring;
    date : jsstring;
    deleteDisabled : bool;
    spinning : bool }.

Definition renderItem (deletingId : option jsstring) (bookmark : Bookmark.t)
  : Item :=
  mkItem (Bookmark.id bookmark)
    (js "https://www.google.com/s2/favicons?domain="
     ++ getDomain (Bookmark.url bookmark) ++ js "&sz=32")
    (Bookmark.url bookmark)
    (Bookmark.title bookmark)
    (Bookmark.url bookmark)
    (formatDate (Bookmark.created_at bookmark))
    (isDeleting deletingId (Bookmark.id bookmark))
    (isDeleting deletingId (Bookmark.id bookmark)).

(** The list section: the placeholder when [bookmarks.length === 0], the
    items otherwise. *)
Inductive Listing : Type :=
| Placeholder : jsstring -> Listing
| Items : list Item -> Listing.

(** What the component renders, as far as it depends on its state. *)
Record View : Type := mkView
  { email : jsstring;
    titleInput : jsstring;
    urlInput : jsstring;
    inputsDisabled : bool;
    errorText : option jsstring;
    submitDisabled : bool;
    submitLabel : jsstring;
    count : nat;
    listing : Listing }.

Definition render (user : User.t) (st : State) : View :=
  mkView (User.email user)
    (title st)
    (url st)
    (submitting st)
    (match error st with
     | Some (c :: msg) => Some (c :: msg)
     | _ => None
     end)
    (submitting st)
    (if submitting st then js "Saving..." else js "Save Bookmark")
    (List.length (bookmarks st))
    (match bookmarks st with
     | [] => Placeholder (js "No bookmarks yet. Add your first one above!")
     | _ :: _ => Items (map (renderItem (deletingId st)) (bookmarks st))
     end).

End Rendering.

Definition items (l : Listing) : list Item :=
  match l with
  | Placeholder _ => []
  | Items its => its
  end.

(** A server that streams an event to a binding exactly when the event
    type is the binding's and the filter of the binding reads
    [user_id=eq.] followed by the [user_id] of the row. *)
Definition streamsExactly `{Realtime} : Prop :=
  forall (f : ChangeFilter) (p : Payload),
    streams f p = true
    <-> event f = eventType p
        /\ filter_ f = js "user_id=eq." ++ Bookmark.user_id (record p).

(** ** The dashboard page *)

(** The user [supabase.auth.getUser()] returns; [full_name] is
    [user_metadata?.full_name], [None] when it is missing. *)
Module AuthUser.
Record t : Type := mk
  { id : jsstring;
    email : jsstring;
    full_name : option jsstring }.
End AuthUser.

Inductive Page : Type :=
| Redirect : jsstring -> Page
| BookmarkClient : User.t -> list Bookmark.t -> Page.

(** [DashboardPage]: [user] is what [getUser] returned, [fetch] answers the
    ordered select.  The result is the page and the requests made. *)
Definition DashboardPage (user : option AuthUser.t)
  (fetch : Postgrest.Order -> SelectResponse) : Page * list Request :=
  match user with
  | None => (Redirect (js "/login"), [])
  | Some user =>
      let order := Postgrest.mkOrder (js "created_at") false in
      let answer := fetch order in
      (BookmarkClient
         (User.mk (AuthUser.id user) (AuthUser.email user)
            (match AuthUser.full_name user with
             | Some full_name => full_name
             | None => AuthUser.email user
             end))
         (initialBookmarks answer),
       [SelectRequest order])
  end.

(** The state the component is mounted in by a page. *)
Definition mounted (p : Page) : option (User.t * State) :=
  match p with
  | Redirect _ => None
  | BookmarkClient user initialBookmarks =>
      Some (user, initialState initialBookmarks)
  end.

(** ** Updates that keep the order *)

Section OrderKeeping.

Variable instant : jsstring -> Z.

(** Creates and realtime inserts of a row at least as new as every row
    held, removals of any kind, resyncs bringing an ordered list. *)
Inductive orderKeeping : list Bookmark.t -> StoreOp -> Prop :=
| ok_create : forall store data,
    Forall (newerOrEqual instant data) store ->
    orderKeeping store (CreateSucceeded data)
| ok_feed_insert : forall store b,
    Forall (newerOrEqual instant b) store ->
    orderKeeping store (FeedInsert b)
| ok_feed_delete : forall store id, orderKeeping store (FeedDelete id)
| ok_optimistic : forall store id, orderKeeping store (OptimisticRemove id)
| ok_resync : forall store data,
    sortedDesc instant data -> orderKeeping store (Resync data).

End OrderKeeping.

(** ** Further instances for examples *)

Module Demo.

(** Reads what follows the first ["://"] of a string. *)
Fixpoint afterSlashes (s : jsstring) : option jsstring :=
  match s with
  | [] => None
  | c :: s' =>
      if startsWith (js "://") s then Some (skipn 3 s) else afterSlashes s'
  end.

Fixpoint untilDelimiter (s : jsstring) : jsstring :=
  match s with
  | [] => []
  | c :: s' =>
      if ((c =? 47) || (c =? 58) || (c =? 63) || (c =? 35))%N then []
      else c :: untilDelimiter s'
  end.

(** Hostnames read between ["://"] and the next [/], [:], [?] or [#]; a
    stand-in for the URL parser, enough for the examples. *)
Definition hostnames : Hostnames :=
  {| URL_hostname := fun s => option_map untilDelimiter (afterSlashes s) |}.

(** Dates shown as the first ten code units of the timestamp. *)
Definition dates : Dates := {| toLocaleDateString := firstn 10 |}.

Definition www : Bookmark.t :=
  Bookmark.mk (js "w3") (js "u1") (js "Example")
    (js "https://www.example.com/a") (js "2024-05-04T08:00:00Z").

Definition carol : AuthUser.t :=
  AuthUser.mk (js "u1") (js "carol@example.com") None.

(** A backend whose errors carry an empty message. *)
Definition mute : World :=
  mkWorld
    (fun _ => Postgrest.mk None (Some (Postgrest.mkError [])))
    (fun _ => Postgrest.mk None (Some (Postgrest.mkError [])))
    (fun _ => Postgrest.mk None (Some (Postgrest.mkError [])))
    (fun _ st => st).

End Demo.

(** * Properties *)

(** ** Strings *)

Lemma eqb_true_iff (a b : jsstring) : JsString.eqb a b = true <-> a = b.
Proof.
  revert b; induction a as [|x a IH]; intros [|y b]; simpl;
    try (split; [discriminate | intros E; discriminate E]);
    try (split; reflexivity).
  rewrite andb_true_iff, N.eqb_eq, IH.
  split; [intros [-> ->]; reflexivity | intros E; injection E; auto].
Qed.

Lemma eqb_refl (a : jsstring) : JsString.eqb a a = true.
Proof. apply eqb_true_iff; reflexivity. Qed.

Lemma eqb_false_iff (a b : jsstring) : JsString.eqb a b = false <-> a <> b.
Proof.
  rewrite <- eqb_true_iff.
  destruct (JsString.eqb a b); split; congruence.
Qed.

Lemma not_true_iff (s : jsstring) : JsString.not s = true <-> s = [].
Proof. destruct s; simpl; split; congruence. Qed.

(** [trim] on a few inputs: ASCII blanks and line ends, a no-break space
    (U+00A0) and a byte-order mark (U+FEFF) go; inner blanks stay. *)
Example trim_ascii :
  JsString.trim (js "  Supabase Docs ") = js "Supabase Docs".
Proof. reflexivity. Qed.

Example trim_unicode :
  JsString.trim ([160; 65279; 9] ++ js "a b" ++ [10; 13; 8232])%N = js "a b".
Proof. reflexivity. Qed.

Example trim_blank : JsString.trim (js "   ") = [].
Proof. reflexivity. Qed.

Lemma trimStart_blank (s : jsstring) :
  forallb JsString.isWhiteSpace s = true -> JsString.trimStart s = [].
Proof.
  induction s as [|c s IH]; simpl; [reflexivity|].
  intros Hall; apply andb_true_iff in Hall; destruct Hall as [Hc Hs].
  rewrite Hc; apply IH; assumption.
Qed.

(** A string made of white space only is empty after [trim]. *)
Lemma trim_blank_string (s : jsstring) :
  forallb JsString.isWhiteSpace s = true -> JsString.trim s = [].
Proof.
  intros Hall; unfold JsString.trim, JsString.trimEnd.
  rewrite (@trimStart_blank s Hall); reflexivity.
Qed.

(** ** The three updaters *)

Lemma some_id_iff (id : jsstring) (store : list Bookmark.t) :
  existsb (fun b => JsString.eqb (Bookmark.id b) id) store = true
  <-> hasId id store.
Proof.
  unfold hasId, ids.
  rewrite existsb_exists, in_map_iff.
  split; intros [b [Hb Hb']]; exists b.
  - apply eqb_true_iff in Hb'; auto.
  - split; [assumption | apply eqb_true_iff; assumption].
Qed.

Lemma insertIfAbsent_present (b : Bookmark.t) (store : list Bookmark.t) :
  hasId (Bookmark.id b) store -> insertIfAbsent b store = store.
Proof.
  intros Hin; unfold insertIfAbsent.
  apply some_id_iff in Hin; rewrite Hin; reflexivity.
Qed.

Lemma insertIfAbsent_absent (b : Bookmark.t) (store : list Bookmark.t) :
  ~ hasId (Bookmark.id b) store -> insertIfAbsent b store = b :: store.
Proof.
  intros Hout; unfold insertIfAbsent.
  destruct (existsb _ store) eqn:E; [|reflexivity].
  apply some_id_iff in E; contradiction.
Qed.

Lemma hasId_insertIfAbsent (b : Bookmark.t) (store : list Bookmark.t) :
  hasId (Bookmark.id b) (insertIfAbsent b store).
Proof.
  unfold insertIfAbsent.
  destruct (existsb _ store) eqn:E.
  - apply some_id_iff; assumption.
  - left; reflexivity.
Qed.

Lemma insertIfAbsent_idempotent (b : Bookmark.t) (store : list Bookmark.t) :
  insertIfAbsent b (insertIfAbsent b store) = insertIfAbsent b store.
Proof. apply insertIfAbsent_present, hasId_insertIfAbsent. Qed.

Lemma removeById_absent (id : jsstring) (store : list Bookmark.t) :
  ~ hasId id store -> removeById id store = store.
Proof.
  unfold hasId, ids, removeById.
  induction store as [|b store IH]; simpl; intros Hout; [reflexivity|].
  destruct (JsString.eqb (Bookmark.id b) id) eqn:E; simpl.
  - apply eqb_true_iff in E; exfalso; apply Hout; left; assumption.
  - f_equal; apply IH; intros Hin; apply Hout; right; assumption.
Qed.

Lemma hasId_removeById (id id' : jsstring) (store : list Bookmark.t) :
  hasId id' (removeById id store) <-> hasId id' store /\ id' <> id.
Proof.
  unfold hasId, ids, removeById.
  rewrite !in_map_iff; split.
  - intros [b [Hb Hin]]; apply filter_In in Hin; destruct Hin as [Hin Hne].
    apply negb_true_iff, eqb_false_iff in Hne; subst id'.
    split; [exists b; auto | assumption].
  - intros [[b [Hb Hin]] Hne]; exists b; split; [assumption|].
    apply filter_In; split; [assumption|].
    apply negb_true_iff, eqb_false_iff; congruence.
Qed.

Lemma removeById_idempotent (id : jsstring) (store : list Bookmark.t) :
  removeById id (removeById id store) = removeById id store.
Proof.
  apply removeById_absent; rewrite hasId_removeById; intros [_ Hne]; auto.
Qed.

Lemma removeById_comm (i j : jsstring) (store : list Bookmark.t) :
  removeById i (removeById j store) = removeById j (removeById i store).
Proof.
  unfold removeById; induction store as [|b store IH]; simpl; [reflexivity|].
  destruct (JsString.eqb (Bookmark.id b) j) eqn:Ej;
    destruct (JsString.eqb (Bookmark.id b) i) eqn:Ei;
    simpl; rewrite ?Ej, ?Ei; simpl; rewrite ?IH; reflexivity.
Qed.

(** ** Uniqueness of ids *)

Lemma uniqueIds_removeById (id : jsstring) (store : list Bookmark.t) :
  uniqueIds store -> uniqueIds (removeById id store).
Proof.
  unfold uniqueIds.
  induction store as [|b store IH]; simpl; intros Hnd; [assumption|].
  inversion Hnd as [|x l Hout Hnd' E]; subst.
  change (filter _ (b :: store)) with (removeById id (b :: store)).
  unfold removeById; simpl.
  destruct (JsString.eqb (Bookmark.id b) id); simpl; [apply IH; assumption|].
  constructor; [|apply IH; assumption].
  intros Hin; apply Hout.
  apply (proj1 (hasId_removeById id (Bookmark.id b) store)) in Hin.
  exact (proj1 Hin).
Qed.

Lemma uniqueIds_insertIfAbsent (b : Bookmark.t) (store : list Bookmark.t) :
  uniqueIds store -> uniqueIds (insertIfAbsent b store).
Proof.
  intros Hnd; unfold insertIfAbsent.
  destruct (existsb _ store) eqn:E; [assumption|].
  unfold uniqueIds; simpl; constructor; [|assumption].
  intros Hin; apply some_id_iff in Hin; congruence.
Qed.

Lemma uniqueIds_prepend_fresh (data : Bookmark.t) (store : list Bookmark.t) :
  ~ hasId (Bookmark.id data) store ->
  uniqueIds store -> uniqueIds (prepend data store).
Proof. intros Hout Hnd; unfold uniqueIds, prepend; simpl; constructor; auto. Qed.

(** The invariant the component does keep: ids stay unique as long as a
    create response never arrives for an id already in the store. *)
Lemma uniqueIds_freshCreate (ops : list StoreOp) :
  forall init : list Bookmark.t,
    uniqueIds init -> admissible freshCreateOp ops init ->
    uniqueIds (applyOps ops init).
Proof.
  induction ops as [|op ops IH]; simpl; intros init Hnd Hok; [assumption|].
  destruct Hok as [Hop Hok]; apply IH; [|assumption].
  inversion Hop; subst; simpl.
  - apply uniqueIds_prepend_fresh; assumption.
  - apply uniqueIds_insertIfAbsent; assumption.
  - apply uniqueIds_removeById; assumption.
  - apply uniqueIds_removeById; assumption.
  - assumption.
Qed.

(** ** Callbacks and handlers as store operations *)

Lemma onInsert_store (payload : Payload) (st : State) :
  bookmarks (onInsert payload st)
  = applyOp (FeedInsert (record payload)) (bookmarks st).
Proof. reflexivity. Qed.

Lemma onDelete_store (payload : Payload) (st : State) :
  bookmarks (onDelete payload st)
  = applyOp (FeedDelete (Bookmark.id (record payload))) (bookmarks st).
Proof. reflexivity. Qed.

Lemma run_handleAddBookmark_success `{Platform} (user : User.t)
  (title url : jsstring) (w : World) (st : State) (u : URL.t)
  (data : Bookmark.t) :
  JsString.trim title <> [] ->
  JsString.trim url <> [] ->
  URL_new (JsString.trim url) = Some u ->
  let row := NewRow.mk (JsString.trim title) (JsString.trim url)
               (User.id user) in
  insertAnswer w row = Postgrest.mk (Some data) None ->
  bookmarks (fst (run w (handleAddBookmark user title url) st))
  = applyOp (CreateSucceeded data)
      (bookmarks
         (inFlight w (InsertRequest row)
            (setError None (setSubmitting true st)))).
Proof.
  intros Ht Hu Hparse row Hanswer.
  unfold handleAddBookmark; simpl.
  destruct (JsString.trim title) as [|c t] eqn:Et; [congruence|].
  destruct (JsString.trim url) as [|d v] eqn:Ev; [congruence|].
  simpl; rewrite Hparse; simpl.
  subst row; rewrite Hanswer; reflexivity.
Qed.

(** ** Insert and delete arriving twice *)

(** The realtime callback after the create response: one copy. *)
Lemma echo_after_response (x : Bookmark.t) (store : list Bookmark.t) :
  applyOps [CreateSucceeded x; FeedInsert x] store = x :: store.
Proof.
  unfold applyOps; simpl; unfold prepend.
  apply insertIfAbsent_present; left; reflexivity.
Qed.

(** The create response after the realtime callback: two copies. *)
Lemma response_after_echo (x : Bookmark.t) (store : list Bookmark.t) :
  ~ hasId (Bookmark.id x) store ->
  applyOps [FeedInsert x; CreateSucceeded x] store = x :: x :: store.
Proof.
  intros Hout; unfold applyOps; simpl; unfold prepend.
  rewrite insertIfAbsent_absent by assumption; reflexivity.
Qed.

(** Deletes, optimistic or from the feed, in any number and order. *)
Lemma deletes_converge (id : jsstring) (store : list Bookmark.t) :
  applyOps [OptimisticRemove id; FeedDelete id] store = removeById id store
  /\ applyOps [FeedDelete id; OptimisticRemove id] store = removeById id store
  /\ applyOps [FeedDelete id; FeedDelete id] store = removeById id store.
Proof.
  unfold applyOps; simpl; rewrite removeById_idempotent; auto.
Qed.

(** C1 — the same Insert received over both channels should leave the same
    store whatever the order.  On the empty store, with the row [a1]: the
    create response followed by its realtime echo leaves one copy, the echo
    followed by the create response leaves two, and a run of
    [handleAddBookmark] during which the echo is delivered before the
    response is handled ends with two copies.  The create branch prepends
    without the presence test of the realtime callback. *)
Theorem C1_response_after_echo_keeps_two_copies :
  applyOps [CreateSucceeded Sample.a1; FeedInsert Sample.a1] []
  = [Sample.a1]
  /\ applyOps [FeedInsert Sample.a1; CreateSucceeded Sample.a1] []
     = [Sample.a1; Sample.a1]
  /\ bookmarks
       (fst (run Sample.echoFirst
               (@handleAddBookmark Sample.schemePlatform Sample.alice
                  (js "Docs") (js "https://example.com/docs"))
               (initialState [])))
     = [Sample.a1; Sample.a1].
Proof. repeat split; vm_compute; reflexivity. Qed.

(** C2 — no two entries of a reachable store should share an id.  From the
    empty store, a realtime Insert of [a1] followed by the create response
    carrying [a1] is a sequence of the listed operations, and the store it
    reaches holds [a1] twice. *)
Theorem C2_echo_then_response_breaks_uniqueness :
  uniqueIds []
  /\ admissible anyOp [FeedInsert Sample.a1; CreateSucceeded Sample.a1] []
  /\ ~ uniqueIds
       (applyOps [FeedInsert Sample.a1; CreateSucceeded Sample.a1] []).
Proof.
  split; [constructor|].
  split; [simpl; repeat split; constructor|].
  rewrite response_after_echo by (intros []).
  unfold uniqueIds; simpl; intros Hnd.
  inversion Hnd as [|x l Hout _ E]; apply Hout; left; reflexivity.
Qed.

(** ** Ownership of realtime events *)

Lemma filteringRealtime_honoursFilter :
  @honoursFilter Sample.filteringRealtime.
Proof.
  intros f p owner Hf Hs; simpl in Hs.
  apply andb_true_iff in Hs; destruct Hs as [_ Hs].
  apply eqb_true_iff in Hs; rewrite Hf in Hs.
  simpl in Hs; injection Hs as <-; reflexivity.
Qed.

(** C3, as stated, fails: the callbacks of the channel never look at
    [user_id].  The INSERT callback, given the row [z9] of owner [u2] in the
    session of [u1], puts it into the empty store. *)
Lemma C3_callbacks_do_not_check_owner :
  ~ (forall (user : User.t) (b : Binding) (payload : Payload) (st : State),
        In b (channel user) ->
        event (changes b) = eventType payload ->
        Bookmark.user_id (record payload) <> User.id user ->
        bookmarks (callback b payload st) = bookmarks st).
Proof.
  intros Hclaim.
  specialize
    (Hclaim Sample.alice
       (mkBinding
          (mkChangeFilter INSERT (js "public") (js "bookmarks")
             (js "user_id=eq." ++ User.id Sample.alice))
          onInsert)
       (mkPayload INSERT Sample.z9) (initialState [])).
  simpl in Hclaim.
  assert (Hstore : [Sample.z9] = @nil Bookmark.t).
  { apply Hclaim; [left; reflexivity | reflexivity | vm_compute; discriminate]. }
  discriminate Hstore.
Qed.

(** C3, amended — an Insert or Delete event whose [user_id] differs from
    the owner of the session leaves the whole component state as it is
    provided the realtime server honours the filter [user_id=eq.<owner>]
    that both bindings of the channel carry: the event reaches neither
    callback.  The protection is the upstream filter; the callbacks have no
    check of their own. *)
Theorem C3_foreign_event_filtered_upstream `{Realtime} (user : User.t)
  (payload : Payload) (st : State) :
  honoursFilter ->
  Bookmark.user_id (record payload) <> User.id user ->
  deliver (channel user) payload st = st.
Proof.
  intros Hhonours Hforeign.
  assert (Hnot : forall f : ChangeFilter,
             filter_ f = js "user_id=eq." ++ User.id user ->
             streams f payload = false).
  { intros f Hf; destruct (streams f payload) eqn:E; [|reflexivity].
    exfalso; apply Hforeign; exact (Hhonours f payload _ Hf E). }
  unfold deliver, channel; cbn [fold_left changes callback].
  rewrite !Hnot by reflexivity; reflexivity.
Qed.

Lemma C3_foreign_event_filtered_upstream_witness :
  Bookmark.user_id (record (mkPayload INSERT Sample.z9))
  <> User.id Sample.alice
  /\ @deliver Sample.filteringRealtime (channel Sample.alice)
       (mkPayload INSERT Sample.z9) (initialState [Sample.b2])
     = initialState [Sample.b2].
Proof.
  assert (Hforeign : Bookmark.user_id (record (mkPayload INSERT Sample.z9))
                     <> User.id Sample.alice)
    by (vm_compute; discriminate).
  split; [exact Hforeign|].
  exact (@C3_foreign_event_filtered_upstream Sample.filteringRealtime
           Sample.alice (mkPayload INSERT Sample.z9)
           (initialState [Sample.b2])
           filteringRealtime_honoursFilter Hforeign).
Defined.

(** ** Create *)

(** C4 — when the title or the location is empty after trimming, or the
    trimmed location is refused by the URL constructor, [handleAddBookmark]
    ends with one of its two validation messages in [error], sends no
    request, and leaves [bookmarks] as it was. *)
Theorem C4_invalid_input_rejected_locally `{Platform} (user : User.t)
  (title url : jsstring) (w : World) (st : State) :
  JsString.trim title = [] \/ JsString.trim url = []
  \/ URL_new (JsString.trim url) = None ->
  let result := run w (handleAddBookmark user title url) st in
  (error (fst result) = Some (js "Both title and URL are required.")
   \/ error (fst result)
      = Some (js "Please enter a valid URL (e.g. https://example.com)."))
  /\ snd result = []
  /\ bookmarks (fst result) = bookmarks st
  /\ submitting (fst result) = false.
Proof.
  intros Hbad; unfold handleAddBookmark; simpl.
  destruct (JsString.not (JsString.trim title) || JsString.not (JsString.trim url))
    eqn:Eempty; simpl.
  - repeat split; left; reflexivity.
  - apply orb_false_iff in Eempty; destruct Eempty as [Et Eu].
    destruct Hbad as [Hbad | [Hbad | Hbad]].
    + rewrite Hbad in Et; discriminate.
    + rewrite Hbad in Eu; discriminate.
    + rewrite Hbad; simpl; repeat split; right; reflexivity.
Qed.

Lemma C4_invalid_input_rejected_locally_witness :
  let result :=
    run Sample.succeeding
      (@handleAddBookmark Sample.schemePlatform Sample.alice
         (js "Docs") (js "  not a url "))
      (initialState [Sample.b2]) in
  (error (fst result) = Some (js "Both title and URL are required.")
   \/ error (fst result)
      = Some (js "Please enter a valid URL (e.g. https://example.com)."))
  /\ snd result = []
  /\ bookmarks (fst result) = bookmarks (initialState [Sample.b2])
  /\ submitting (fst result) = false.
Proof.
  apply (@C4_invalid_input_rejected_locally Sample.schemePlatform).
  right; right; vm_compute; reflexivity.
Defined.

(** C5 — once validation has passed, [handleAddBookmark] sends exactly one
    insert.  When the answer carries an error, its message ends up in
    [error] and [bookmarks] is what it was when the answer arrived (what it
    was before the call if nothing else ran meanwhile): nothing inserted,
    nothing removed.  When the answer carries the row and no error, the row
    is put at the head. *)
Theorem C5_create_failure_leaves_store `{Platform} (user : User.t)
  (title url : jsstring) (w : World) (st : State) (u : URL.t) :
  JsString.trim title <> [] ->
  JsString.trim url <> [] ->
  URL_new (JsString.trim url) = Some u ->
  let row := NewRow.mk (JsString.trim title) (JsString.trim url)
               (User.id user) in
  let arrived := inFlight w (InsertRequest row)
                   (setError None (setSubmitting true st)) in
  let result := run w (handleAddBookmark user title url) st in
  snd result = [InsertRequest row]
  /\ (forall insertError : Postgrest.Error,
         Postgrest.error (insertAnswer w row) = Some insertError ->
         error (fst result) = Some (Postgrest.message insertError)
         /\ bookmarks (fst result) = bookmarks arrived
         /\ (quiet w -> bookmarks (fst result) = bookmarks st))
  /\ (forall data : Bookmark.t,
         insertAnswer w row = Postgrest.mk (Some data) None ->
         bookmarks (fst result) = data :: bookmarks arrived).
Proof.
  intros Ht Hu Hparse row arrived; subst arrived row.
  unfold handleAddBookmark; simpl.
  destruct (JsString.trim title) as [|c t] eqn:Et; [congruence|].
  destruct (JsString.trim url) as [|d v] eqn:Ev; [congruence|].
  simpl; rewrite Hparse; simpl.
  set (row := NewRow.mk (c :: t) (d :: v) (User.id user)).
  destruct (insertAnswer w row) as [data err] eqn:Eanswer; simpl.
  destruct err as [e|]; [|destruct data as [b|]]; simpl;
    (split; [reflexivity|]); split.
  - intros insertError Herr; injection Herr as <-.
    split; [reflexivity|]; split; [reflexivity|].
    intros Hquiet; rewrite Hquiet; reflexivity.
  - intros data' Hdata; discriminate Hdata.
  - intros insertError Herr; discriminate Herr.
  - intros data' Hdata; injection Hdata as <-; reflexivity.
  - intros insertError Herr; discriminate Herr.
  - intros data' Hdata; discriminate Hdata.
Qed.

Lemma C5_create_failure_leaves_store_witness :
  let title := js "Docs" in
  let url := js " https://example.com/docs " in
  let st := initialState [Sample.b2] in
  let row := NewRow.mk (JsString.trim title) (JsString.trim url)
               (User.id Sample.alice) in
  let arrived := inFlight Sample.failing (InsertRequest row)
                   (setError None (setSubmitting true st)) in
  let result :=
    run Sample.failing
      (@handleAddBookmark Sample.schemePlatform Sample.alice title url) st in
  snd result = [InsertRequest row]
  /\ (forall insertError : Postgrest.Error,
         Postgrest.error (insertAnswer Sample.failing row) = Some insertError ->
         error (fst result) = Some (Postgrest.message insertError)
         /\ bookmarks (fst result) = bookmarks arrived
         /\ (quiet Sample.failing -> bookmarks (fst result) = bookmarks st))
  /\ (forall data : Bookmark.t,
         insertAnswer Sample.failing row = Postgrest.mk (Some data) None ->
         bookmarks (fst result) = data :: bookmarks arrived).
Proof.
  apply (@C5_create_failure_leaves_store Sample.schemePlatform Sample.alice
           (js "Docs") (js " https://example.com/docs ") Sample.failing
           (initialState [Sample.b2]) (URL.mk (js "https:")));
    vm_compute; [discriminate | discriminate | reflexivity].
Defined.

(** A location with the [javascript:] scheme passes validation on the
    sample platform and is sent to the backend. *)
Example javascript_url_is_sent :
  snd (run Sample.succeeding
         (@handleAddBookmark Sample.schemePlatform Sample.alice
            (js "Run") (js "javascript:alert(1)"))
         (initialState []))
  = [InsertRequest
       (NewRow.mk (js "Run") (js "javascript:alert(1)") (js "u1"))].
Proof. vm_compute; reflexivity. Qed.

(** C9 — the validation of [handleAddBookmark] is: trimmed title not empty,
    trimmed location not empty, and the URL constructor returns on the
    trimmed location.  The insert is sent exactly in that case, whatever URL
    the constructor returns (hence whatever its scheme), and nothing is sent
    otherwise. *)
Theorem C9_validation_is_the_url_constructor `{Platform} (user : User.t)
  (title url : jsstring) (w : World) (st : State) :
  let row := NewRow.mk (JsString.trim title) (JsString.trim url)
               (User.id user) in
  let sent := snd (run w (handleAddBookmark user title url) st) in
  (sent = [InsertRequest row]
   <-> JsString.trim title <> [] /\ JsString.trim url <> []
       /\ exists u : URL.t, URL_new (JsString.trim url) = Some u)
  /\ (sent = []
      <-> JsString.trim title = [] \/ JsString.trim url = []
          \/ URL_new (JsString.trim url) = None).
Proof.
  intros row sent; subst sent row.
  unfold handleAddBookmark; simpl.
  destruct (JsString.trim title) as [|c t] eqn:Et; simpl.
  { split; split; try discriminate; auto.
    intros [Hne _]; congruence. }
  destruct (JsString.trim url) as [|d v] eqn:Ev; simpl.
  { split; split; try discriminate; auto.
    intros [_ [Hne _]]; congruence. }
  destruct (URL_new (d :: v)) as [u|] eqn:Eparse; simpl.
  - destruct (run w _ _) as [st' sent'] eqn:Erun; simpl.
    assert (Hsent : sent' = []).
    { destruct (Postgrest.error _) in Erun; simpl in Erun;
        [|destruct (Postgrest.data _) in Erun; simpl in Erun];
        injection Erun as _ <-; reflexivity. }
    subst sent'; split; split; try discriminate.
    + intros _; repeat split; try discriminate; exists u; reflexivity.
    + reflexivity.
    + intros [Hbad | [Hbad | Hbad]]; discriminate Hbad.
  - split; split; try discriminate; auto.
    intros [_ [_ [u Hu]]]; discriminate Hu.
Qed.

(** ** Delete *)

(** C6, as stated, fails on the failure path: the store is replaced only
    when the refetch returns rows.  With a backend that rejects the delete
    of [a1] and fails the refetch as well, no rows come back and
    [bookmarks] stays [[b2]], the list left by the optimistic removal. *)
Lemma C6_failed_refetch_replaces_nothing :
  ~ (forall (id : jsstring) (w : World) (st : State)
       (deleteError : Postgrest.Error),
        Postgrest.error (deleteAnswer w id) = Some deleteError ->
        exists data : list Bookmark.t,
          Postgrest.data
            (selectAnswer w (Postgrest.mkOrder (js "created_at") false))
          = Some data
          /\ bookmarks (fst (run w (handleDelete id) st)) = data).
Proof.
  intros Hclaim.
  destruct (Hclaim (js "a1") Sample.offline
              (initialState [Sample.a1; Sample.b2]) Sample.denied eq_refl)
    as [data [Hdata _]].
  discriminate Hdata.
Qed.

(** C6, amended — [handleDelete id] removes the entry in its synchronous
    prefix, before the delete request is answered: when the request is
    pending no entry of [bookmarks] has the id and the entries left are
    exactly those with another id.  An answer without error ends the
    handler with no further change of [bookmarks] or [error].  An answer
    with an error puts its message in [error] and sends one select ordered
    by [created_at] descending; when the select returns rows, [bookmarks]
    is exactly these rows; when it returns none, [bookmarks] is not
    replaced. *)
Theorem C6_delete_removes_then_resyncs_on_rows (id : jsstring) (w : World)
  (st : State) :
  let order := Postgrest.mkOrder (js "created_at") false in
  let awaiting := fst (runSync (handleDelete id) st) in
  let answered := inFlight w (DeleteRequest id) awaiting in
  let result := run w (handleDelete id) st in
  (pending (snd (runSync (handleDelete id) st)) = Some (DeleteRequest id)
   /\ ~ hasId id (bookmarks awaiting)
   /\ (forall b : Bookmark.t,
          In b (bookmarks awaiting)
          <-> In b (bookmarks st) /\ Bookmark.id b <> id))
  /\ (Postgrest.error (deleteAnswer w id) = None ->
      snd result = [DeleteRequest id]
      /\ bookmarks (fst result) = bookmarks answered
      /\ error (fst result) = error answered)
  /\ (forall deleteError : Postgrest.Error,
         Postgrest.error (deleteAnswer w id) = Some deleteError ->
         let refetched :=
           inFlight w (SelectRequest order)
             (setError (Some (Postgrest.message deleteError)) answered) in
         snd result = [DeleteRequest id; SelectRequest order]
         /\ error (fst result) = error refetched
         /\ (quiet w ->
             error (fst result) = Some (Postgrest.message deleteError))
         /\ (forall data : list Bookmark.t,
                Postgrest.data (selectAnswer w order) = Some data ->
                bookmarks (fst result) = data)
         /\ (Postgrest.data (selectAnswer w order) = None ->
             bookmarks (fst result) = bookmarks refetched)).
Proof.
  intros order awaiting answered result.
  subst result answered awaiting order.
  unfold handleDelete; simpl; split; [|split].
  - split; [reflexivity|]; split.
    + rewrite hasId_removeById; intros [_ Hne]; apply Hne; reflexivity.
    + intros b; unfold removeById; rewrite filter_In.
      rewrite negb_true_iff, eqb_false_iff; reflexivity.
  - intros Hok; rewrite Hok; simpl; auto.
  - intros deleteError Hfail; rewrite Hfail; simpl.
    destruct (Postgrest.data (selectAnswer w _)) as [data|] eqn:Edata;
      simpl; (split; [reflexivity|]); (split; [reflexivity|]); split.
    + intros Hquiet; rewrite !Hquiet; reflexivity.
    + split; [|discriminate].
      intros data' Hdata; injection Hdata as <-; reflexivity.
    + intros Hquiet; rewrite !Hquiet; reflexivity.
    + split; [discriminate | reflexivity].
Qed.

Lemma C6_delete_removes_then_resyncs_on_rows_witness :
  ~ hasId (js "a1")
      (bookmarks
         (fst (runSync (handleDelete (js "a1"))
                 (initialState [Sample.a1; Sample.b2]))))
  /\ bookmarks
       (fst (run Sample.succeeding (handleDelete (js "a1"))
               (initialState [Sample.a1; Sample.b2])))
     = [Sample.b2]
  /\ snd (run Sample.failing (handleDelete (js "a1"))
            (initialState [Sample.b2]))
     = [DeleteRequest (js "a1");
        SelectRequest (Postgrest.mkOrder (js "created_at") false)]
  /\ error
       (fst (run Sample.failing (handleDelete (js "a1"))
               (initialState [Sample.b2])))
     = Some (js "permission denied")
  /\ bookmarks
       (fst (run Sample.failing (handleDelete (js "a1"))
               (initialState [Sample.b2])))
     = [Sample.a1; Sample.b2].
Proof.
  destruct (@C6_delete_removes_then_resyncs_on_rows (js "a1")
              Sample.succeeding (initialState [Sample.a1; Sample.b2]))
    as [[_ [Habsent _]] [Hok _]].
  destruct (Hok eq_refl) as [_ [Hstore _]].
  destruct (@C6_delete_removes_then_resyncs_on_rows (js "a1")
              Sample.failing (initialState [Sample.b2]))
    as [_ [_ Hfail]].
  destruct (Hfail Sample.denied eq_refl)
    as [Hsent [_ [Herror [Hrows _]]]].
  split; [exact Habsent|]; split; [exact Hstore|]; split; [exact Hsent|].
  split; [exact (Herror (fun r s => eq_refl))|].
  exact (Hrows [Sample.a1; Sample.b2] eq_refl).
Defined.

(** C10 — when the delete request fails, [handleDelete] sends the delete
    and one refetch and nothing more.  If the refetch brings no rows,
    [bookmarks] is what the optimistic removal (and whatever ran in flight)
    left: with nothing in flight, the list before the call without the
    entry.  It is replaced only when the refetch brings rows. *)
Theorem C10_failed_resync_keeps_optimistic_state (id : jsstring) (w : World)
  (st : State) (deleteError : Postgrest.Error) :
  Postgrest.error (deleteAnswer w id) = Some deleteError ->
  let order := Postgrest.mkOrder (js "created_at") false in
  let removed := setBookmarks (removeById id) (setDeletingId (Some id) st) in
  let arrived :=
    inFlight w (SelectRequest order)
      (setError (Some (Postgrest.message deleteError))
         (inFlight w (DeleteRequest id) removed)) in
  let result := run w (handleDelete id) st in
  snd result = [DeleteRequest id; SelectRequest order]
  /\ (Postgrest.data (selectAnswer w order) = None ->
      bookmarks (fst result) = bookmarks arrived
      /\ (quiet w -> bookmarks (fst result) = removeById id (bookmarks st)))
  /\ (forall data : list Bookmark.t,
         Postgrest.data (selectAnswer w order) = Some data ->
         bookmarks (fst result) = data).
Proof.
  intros Hfail order removed arrived; subst arrived removed order.
  unfold handleDelete; simpl; rewrite Hfail; simpl.
  destruct (Postgrest.data (selectAnswer w _)) as [data|] eqn:Edata; simpl.
  - split; [reflexivity|]; split; [discriminate|].
    intros data' Hdata; injection Hdata as <-; reflexivity.
  - split; [reflexivity|]; split; [|discriminate].
    intros _; split; [reflexivity|].
    intros Hquiet; rewrite !Hquiet; reflexivity.
Qed.

Lemma C10_failed_resync_keeps_optimistic_state_witness :
  Postgrest.error (deleteAnswer Sample.offline (js "a1")) = Some Sample.denied
  /\ snd (run Sample.offline (handleDelete (js "a1"))
            (initialState [Sample.a1; Sample.b2]))
     = [DeleteRequest (js "a1");
        SelectRequest (Postgrest.mkOrder (js "created_at") false)]
  /\ bookmarks (fst (run Sample.offline (handleDelete (js "a1"))
                       (initialState [Sample.a1; Sample.b2])))
     = [Sample.b2].
Proof.
  split; [reflexivity|].
  destruct (@C10_failed_resync_keeps_optimistic_state (js "a1")
              Sample.offline (initialState [Sample.a1; Sample.b2])
              Sample.denied eq_refl) as [Hsent [Hnone _]].
  split; [exact Hsent|].
  destruct (Hnone eq_refl) as [_ Hquiet].
  rewrite Hquiet; [reflexivity | intros r s; reflexivity].
Defined.


(** C8 — deleting an id the store does not hold changes nothing: the
    DELETE callback returns the state it was given, the synchronous prefix
    of [handleDelete] only records [deletingId], and the filter both use
    returns the list itself. *)
Theorem C8_delete_of_absent_id_is_noop (id : jsstring) (st : State) :
  ~ hasId id (bookmarks st) ->
  removeById id (bookmarks st) = bookmarks st
  /\ (forall payload : Payload,
         Bookmark.id (record payload) = id -> onDelete payload st = st)
  /\ fst (runSync (handleDelete id) st) = setDeletingId (Some id) st.
Proof.
  intros Habsent.
  pose proof (removeById_absent id (bookmarks st) Habsent) as Hsame.
  split; [assumption|]; split.
  - intros payload <-; unfold onDelete, setBookmarks.
    rewrite Hsame; destruct st; reflexivity.
  - unfold handleDelete; simpl; unfold setBookmarks; simpl.
    rewrite Hsame; reflexivity.
Qed.

Lemma C8_delete_of_absent_id_is_noop_witness :
  ~ hasId (js "a1") (bookmarks (initialState [Sample.b2]))
  /\ removeById (js "a1") (bookmarks (initialState [Sample.b2]))
     = bookmarks (initialState [Sample.b2])
  /\ (forall payload : Payload,
         Bookmark.id (record payload) = js "a1" ->
         onDelete payload (initialState [Sample.b2])
         = initialState [Sample.b2])
  /\ fst (runSync (handleDelete (js "a1")) (initialState [Sample.b2]))
     = setDeletingId (Some (js "a1")) (initialState [Sample.b2]).
Proof.
  assert (Habsent : ~ hasId (js "a1") (bookmarks (initialState [Sample.b2]))).
  { vm_compute; intros [E | []]; discriminate E. }
  split; [exact Habsent|].
  exact (@C8_delete_of_absent_id_is_noop (js "a1")
           (initialState [Sample.b2]) Habsent).
Defined.

(** ** Order of the store *)

Section SortInvariant.

Variable instant : jsstring -> Z.

Lemma sortedDesc_prepend (data : Bookmark.t) (store : list Bookmark.t) :
  Forall (newerOrEqual instant data) store ->
  sortedDesc instant store ->
  sortedDesc instant (prepend data store).
Proof.
  intros Hnew Hsorted; unfold sortedDesc, prepend.
  constructor; [assumption|].
  destruct Hnew as [|b rest Hb _]; constructor; assumption.
Qed.

(** The list the dashboard page mounts the component with is ordered when
    the rows of its fetch are. *)
Lemma sortedDesc_initialBookmarks (answer : SelectResponse) :
  (forall rows : list Bookmark.t,
      Postgrest.data answer = Some rows -> sortedDesc instant rows) ->
  sortedDesc instant (initialBookmarks answer).
Proof.
  intros Hrows; unfold initialBookmarks.
  destruct (Postgrest.data answer) as [rows|]; [auto | constructor].
Qed.

(** C7 — starting from a list ordered by [created_at] descending, create
    responses whose row is at least as new as every row held and resyncs
    that bring a list ordered by [created_at] descending keep [bookmarks]
    ordered by [created_at] descending. *)
Theorem C7_creates_and_resyncs_keep_order (ops : list StoreOp) :
  forall init : list Bookmark.t,
    sortedDesc instant init ->
    admissible (createOrResync instant) ops init ->
    sortedDesc instant (applyOps ops init).
Proof.
  induction ops as [|op ops IH]; simpl; intros init Hsorted Hok;
    [assumption|].
  destruct Hok as [Hop Hok]; apply IH; [|assumption].
  inversion Hop; subst; simpl.
  - apply sortedDesc_prepend; assumption.
  - assumption.
Qed.

End SortInvariant.

Lemma C7_creates_and_resyncs_keep_order_witness :
  sortedDesc Sample.numeral [Sample.b2]
  /\ admissible (createOrResync Sample.numeral)
       [CreateSucceeded Sample.a1; Resync [Sample.a1; Sample.b2];
        CreateSucceeded Sample.z9]
       [Sample.b2]
  /\ sortedDesc Sample.numeral
       (applyOps
          [CreateSucceeded Sample.a1; Resync [Sample.a1; Sample.b2];
           CreateSucceeded Sample.z9]
          [Sample.b2]).
Proof.
  assert (Hinit : sortedDesc Sample.numeral [Sample.b2])
    by (repeat constructor).
  assert (Hab : newerOrEqual Sample.numeral Sample.a1 Sample.b2)
    by (apply Z.leb_le; vm_compute; reflexivity).
  assert (Hza : newerOrEqual Sample.numeral Sample.z9 Sample.a1)
    by (apply Z.leb_le; vm_compute; reflexivity).
  assert (Hzb : newerOrEqual Sample.numeral Sample.z9 Sample.b2)
    by (apply Z.leb_le; vm_compute; reflexivity).
  assert (Hops : admissible (createOrResync Sample.numeral)
                   [CreateSucceeded Sample.a1; Resync [Sample.a1; Sample.b2];
                    CreateSucceeded Sample.z9]
                   [Sample.b2]).
  { simpl; repeat split.
    - constructor; repeat constructor; exact Hab.
    - constructor; repeat constructor; exact Hab.
    - constructor; unfold replaceAll; repeat constructor; assumption. }
  split; [exact Hinit|]; split; [exact Hops|].
  exact (@C7_creates_and_resyncs_keep_order Sample.numeral _ _ Hinit Hops).
Defined.

(** * Further properties of the component *)

(** ** [getDomain] *)

Lemma startsWith_app (pat rest : jsstring) :
  startsWith pat (pat ++ rest) = true.
Proof.
  induction pat as [|p pat IH]; simpl; [reflexivity|].
  rewrite N.eqb_refl; assumption.
Qed.

Lemma startsWith_other_head (p c : N) (pat s : jsstring) :
  p <> c -> startsWith (p :: pat) (c :: s) = false.
Proof.
  intros Hne; cbn [startsWith].
  apply N.eqb_neq in Hne; rewrite Hne; reflexivity.
Qed.

Lemma skipn_length_app (pat rest : jsstring) :
  skipn (List.length pat) (pat ++ rest) = rest.
Proof. induction pat as [|p pat IH]; simpl; auto. Qed.

Lemma replaceString_unfold (pat rep s : jsstring) :
  replaceString pat rep s
  = if startsWith pat s then rep ++ skipn (List.length pat) s
    else
      match s with
      | [] => []
      | c :: s' => c :: replaceString pat rep s'
      end.
Proof. destruct s; reflexivity. Qed.

Lemma replaceString_first (pat rep pre post : jsstring) :
  (forall k : nat,
      (k < List.length pre)%nat ->
      startsWith pat (skipn k (pre ++ pat ++ post)) = false) ->
  replaceString pat rep (pre ++ pat ++ post) = pre ++ rep ++ post.
Proof.
  induction pre as [|c pre IH]; intros Hfree.
  - rewrite replaceString_unfold; simpl.
    rewrite startsWith_app, skipn_length_app; reflexivity.
  - pose proof (Hfree 0%nat (Nat.lt_0_succ _)) as H0; simpl in H0.
    rewrite replaceString_unfold.
    change ((c :: pre) ++ pat ++ post) with (c :: (pre ++ pat ++ post)).
    rewrite H0; simpl; f_equal; apply IH.
    intros k Hk; apply (Hfree (S k)); simpl; lia.
Qed.

Lemma replaceString_absent (pat rep s : jsstring) :
  (forall k : nat, startsWith pat (skipn k s) = false) ->
  replaceString pat rep s = s.
Proof.
  induction s as [|c s IH]; intros Hfree;
    pose proof (Hfree 0%nat) as H0; simpl in H0;
    rewrite replaceString_unfold, H0; [reflexivity|].
  f_equal; apply IH; intros k; exact (Hfree (S k)).
Qed.

(** X1 — [getDomain] removes the first ["www."] of the hostname wherever
    it stands, not only at its head: when nothing before it contains the
    letter [w], the hostname [pre ++ "www." ++ post] is shown as
    [pre ++ post]; whatever follows, a second ["www."] included, stays. *)
Theorem getDomain_removes_first_www `{Hostnames} (rawUrl pre post : jsstring) :
  ~ In 119%N pre ->
  URL_hostname rawUrl = Some (pre ++ js "www." ++ post) ->
  getDomain rawUrl = pre ++ post.
Proof.
  intros Hw Hhost; unfold getDomain; rewrite Hhost.
  change (pre ++ post) with (pre ++ [] ++ post).
  apply replaceString_first.
  clear Hhost; induction pre as [|c pre IH]; intros k Hk; simpl in Hk;
    [lia|].
  destruct k as [|k].
  - change (js "www.") with (119%N :: js "ww.").
    apply startsWith_other_head.
    intros E; apply Hw; left; symmetry; assumption.
  - cbn [skipn app]; apply IH; [|lia].
    intros Hin; apply Hw; right; assumption.
Qed.

Lemma getDomain_removes_first_www_witness :
  ~ In 119%N (js "api.")
  /\ @URL_hostname Demo.hostnames (js "https://api.www.www.example.com/x")
     = Some (js "api." ++ js "www." ++ js "www.example.com")
  /\ @getDomain Demo.hostnames (js "https://api.www.www.example.com/x")
     = js "api." ++ js "www.example.com".
Proof.
  assert (Hw : ~ In 119%N (js "api."))
    by (vm_compute; intros [E | [E | [E | [E | []]]]]; discriminate E).
  assert (Hhost :
            @URL_hostname Demo.hostnames
              (js "https://api.www.www.example.com/x")
            = Some (js "api." ++ js "www." ++ js "www.example.com"))
    by (vm_compute; reflexivity).
  split; [exact Hw|]; split; [exact Hhost|].
  exact (@getDomain_removes_first_www Demo.hostnames _ _ _ Hw Hhost).
Defined.

(** X2 — [getDomain] never fails: a string the URL constructor refuses is
    returned as it is, and a hostname in which ["www."] does not occur is
    returned whole. *)
Theorem getDomain_falls_back `{Hostnames} (rawUrl : jsstring) :
  (URL_hostname rawUrl = None -> getDomain rawUrl = rawUrl)
  /\ (forall hostname : jsstring,
         URL_hostname rawUrl = Some hostname ->
         (forall k : nat,
             startsWith (js "www.") (skipn k hostname) = false) ->
         getDomain rawUrl = hostname).
Proof.
  unfold getDomain; split.
  - intros ->; reflexivity.
  - intros hostname -> Hfree; apply replaceString_absent; assumption.
Qed.

(** ** Inserts and deletes on the store *)

(** X3 — [removeById] removes every entry with the id, copies included,
    and nothing else: afterwards the id is absent, and the entries left are
    exactly those of the store with another id. *)
Theorem removeById_removes_every_copy (id : jsstring)
  (store : list Bookmark.t) :
  ~ hasId id (removeById id store)
  /\ (forall b : Bookmark.t,
         In b (removeById id store) <-> In b store /\ Bookmark.id b <> id)
  /\ (List.length (removeById id store) <= List.length store)%nat.
Proof.
  split; [|split].
  - rewrite hasId_removeById; intros [_ Hne]; apply Hne; reflexivity.
  - intros b; unfold removeById; rewrite filter_In.
    rewrite negb_true_iff, eqb_false_iff; reflexivity.
  - unfold removeById; apply filter_length_le.
Qed.

Lemma removeById_insertIfAbsent_same (x : Bookmark.t)
  (store : list Bookmark.t) :
  removeById (Bookmark.id x) (insertIfAbsent x store)
  = removeById (Bookmark.id x) store.
Proof.
  unfold insertIfAbsent; destruct (existsb _ store); [reflexivity|].
  unfold removeById; simpl; rewrite eqb_refl; reflexivity.
Qed.

(** X4 — an Insert and a Delete of the same row do not commute.  Insert
    then Delete leaves the store without the row; Delete then Insert (an
    INSERT event delivered after the DELETE) leaves the row at the head. *)
Theorem insert_after_delete_brings_row_back (x : Bookmark.t)
  (store : list Bookmark.t) :
  applyOps [FeedInsert x; FeedDelete (Bookmark.id x)] store
  = removeById (Bookmark.id x) store
  /\ applyOps [FeedDelete (Bookmark.id x); FeedInsert x] store
     = x :: removeById (Bookmark.id x) store
  /\ applyOps [OptimisticRemove (Bookmark.id x); FeedInsert x] store
     = x :: removeById (Bookmark.id x) store.
Proof.
  assert (Hback : insertIfAbsent x (removeById (Bookmark.id x) store)
                  = x :: removeById (Bookmark.id x) store).
  { apply insertIfAbsent_absent; rewrite hasId_removeById.
    intros [_ Hne]; apply Hne; reflexivity. }
  unfold applyOps; simpl; rewrite removeById_insertIfAbsent_same; auto.
Qed.

(** X5 — a realtime Insert and a removal (optimistic or from the feed) of
    different ids commute. *)
Theorem insert_and_delete_of_other_id_commute (x : Bookmark.t) (j : jsstring)
  (store : list Bookmark.t) :
  Bookmark.id x <> j ->
  removeById j (insertIfAbsent x store)
  = insertIfAbsent x (removeById j store).
Proof.
  intros Hne; unfold insertIfAbsent at 1.
  destruct (existsb _ store) eqn:E.
  - apply some_id_iff in E; symmetry; apply insertIfAbsent_present.
    rewrite hasId_removeById; auto.
  - rewrite insertIfAbsent_absent.
    + unfold removeById; simpl.
      apply eqb_false_iff in Hne; rewrite Hne; reflexivity.
    + rewrite hasId_removeById; intros [Hin _].
      apply some_id_iff in Hin; congruence.
Qed.

Lemma insert_and_delete_of_other_id_commute_witness :
  Bookmark.id Sample.a1 <> js "b2"
  /\ removeById (js "b2") (insertIfAbsent Sample.a1 [Sample.b2])
     = insertIfAbsent Sample.a1 (removeById (js "b2") [Sample.b2]).
Proof.
  assert (Hne : Bookmark.id Sample.a1 <> js "b2")
    by (vm_compute; discriminate).
  split; [exact Hne|].
  exact (@insert_and_delete_of_other_id_commute Sample.a1 (js "b2")
           [Sample.b2] Hne).
Defined.

Lemma hasId_insertIfAbsent_other (a b : Bookmark.t)
  (store : list Bookmark.t) :
  Bookmark.id a <> Bookmark.id b ->
  hasId (Bookmark.id a) (insertIfAbsent b store)
  <-> hasId (Bookmark.id a) store.
Proof.
  intros Hne; unfold insertIfAbsent.
  destruct (existsb _ store); [reflexivity|].
  unfold hasId, ids; simpl; split; [|auto].
  intros [E | Hin]; [congruence | assumption].
Qed.

(** X6 — two realtime Inserts of rows with different ids give the same
    entries in either arrival order, but not the same sequence: when
    neither id is held, the row delivered last is the first of the list. *)
Theorem feed_inserts_commute_up_to_order (a b : Bookmark.t)
  (store : list Bookmark.t) :
  Bookmark.id a <> Bookmark.id b ->
  Permutation (insertIfAbsent a (insertIfAbsent b store))
    (insertIfAbsent b (insertIfAbsent a store))
  /\ (~ hasId (Bookmark.id a) store ->
      ~ hasId (Bookmark.id b) store ->
      insertIfAbsent a (insertIfAbsent b store) = a :: b :: store
      /\ insertIfAbsent b (insertIfAbsent a store) = b :: a :: store).
Proof.
  intros Hne.
  assert (Hne' : Bookmark.id b <> Bookmark.id a) by congruence.
  assert (Hfresh :
            ~ hasId (Bookmark.id a) store ->
            ~ hasId (Bookmark.id b) store ->
            insertIfAbsent a (insertIfAbsent b store) = a :: b :: store
            /\ insertIfAbsent b (insertIfAbsent a store) = b :: a :: store).
  { intros Ha Hb.
    rewrite (insertIfAbsent_absent b store Hb).
    rewrite (insertIfAbsent_absent a store Ha).
    split; apply insertIfAbsent_absent; unfold hasId, ids; simpl;
      intros [E | Hin]; congruence || contradiction. }
  split; [|exact Hfresh].
  destruct (existsb (fun c => JsString.eqb (Bookmark.id c) (Bookmark.id a))
              store) eqn:Ea;
    destruct (existsb (fun c => JsString.eqb (Bookmark.id c) (Bookmark.id b))
                store) eqn:Eb.
  - apply some_id_iff in Ea, Eb.
    rewrite (insertIfAbsent_present b store Eb).
    rewrite (insertIfAbsent_present a store Ea).
    rewrite (insertIfAbsent_present b store Eb).
    reflexivity.
  - apply some_id_iff in Ea.
    rewrite (insertIfAbsent_present a store Ea).
    rewrite insertIfAbsent_present; [reflexivity|].
    apply hasId_insertIfAbsent_other; assumption.
  - apply some_id_iff in Eb.
    rewrite (insertIfAbsent_present b store Eb).
    rewrite (insertIfAbsent_present b); [reflexivity|].
    apply hasId_insertIfAbsent_other; assumption.
  - assert (Ha : ~ hasId (Bookmark.id a) store)
      by (rewrite <- some_id_iff; congruence).
    assert (Hb : ~ hasId (Bookmark.id b) store)
      by (rewrite <- some_id_iff; congruence).
    destruct (Hfresh Ha Hb) as [-> ->]; apply perm_swap.
Qed.

Lemma feed_inserts_commute_up_to_order_witness :
  Bookmark.id Sample.a1 <> Bookmark.id Sample.b2
  /\ Permutation (insertIfAbsent Sample.a1 (insertIfAbsent Sample.b2 []))
       (insertIfAbsent Sample.b2 (insertIfAbsent Sample.a1 [])).
Proof.
  assert (Hne : Bookmark.id Sample.a1 <> Bookmark.id Sample.b2)
    by (vm_compute; discriminate).
  split; [exact Hne|].
  exact (proj1 (@feed_inserts_commute_up_to_order Sample.a1 Sample.b2 []
                  Hne)).
Defined.

(** ** Order and uniqueness under every kind of update *)

Section OrderKept.

Variable instant : jsstring -> Z.

Lemma newerOrEqual_trans (a b c : Bookmark.t) :
  newerOrEqual instant a b -> newerOrEqual instant b c ->
  newerOrEqual instant a c.
Proof. unfold newerOrEqual; lia. Qed.

Lemma sortedDesc_all_older (a : Bookmark.t) (store : list Bookmark.t) :
  sortedDesc instant (a :: store) -> Forall (newerOrEqual instant a) store.
Proof.
  intros Hsorted.
  apply Sorted_StronglySorted in Hsorted.
  - inversion Hsorted; assumption.
  - intros x y z; apply newerOrEqual_trans.
Qed.

Lemma sortedDesc_removeById (id : jsstring) (store : list Bookmark.t) :
  sortedDesc instant store -> sortedDesc instant (removeById id store).
Proof.
  unfold sortedDesc, removeById.
  induction store as [|a store IH]; simpl; intros Hsorted; [constructor|].
  pose proof (sortedDesc_all_older Hsorted) as Holder.
  inversion Hsorted as [|x l Htail _ E]; subst.
  destruct (negb (JsString.eqb (Bookmark.id a) id)); [|apply IH; assumption].
  constructor; [apply IH; assumption|].
  destruct (filter _ store) as [|b rest] eqn:Ef; constructor.
  assert (Hb : In b (filter
                       (fun b => negb (JsString.eqb (Bookmark.id b) id))
                       store))
    by (rewrite Ef; left; reflexivity).
  apply filter_In in Hb; destruct Hb as [Hb _].
  exact (proj1 (Forall_forall _ _) Holder b Hb).
Qed.

Lemma sortedDesc_insertIfAbsent (b : Bookmark.t) (store : list Bookmark.t) :
  Forall (newerOrEqual instant b) store ->
  sortedDesc instant store -> sortedDesc instant (insertIfAbsent b store).
Proof.
  intros Hnew Hsorted; unfold insertIfAbsent.
  destruct (existsb _ store); [assumption|].
  apply (sortedDesc_prepend Hnew Hsorted).
Qed.

(** X7 — the order by [created_at] descending is kept by every kind of
    update, removals included: creates and realtime inserts of a row at
    least as new as every row held, optimistic and realtime removals, and
    resyncs bringing an ordered list. *)
Theorem order_kept_by_all_updates (ops : list StoreOp) :
  forall init : list Bookmark.t,
    sortedDesc instant init ->
    admissible (orderKeeping instant) ops init ->
    sortedDesc instant (applyOps ops init).
Proof.
  induction ops as [|op ops IH]; simpl; intros init Hsorted Hok;
    [assumption|].
  destruct Hok as [Hop Hok]; apply IH; [|assumption].
  inversion Hop; subst; simpl.
  - apply sortedDesc_prepend; assumption.
  - apply sortedDesc_insertIfAbsent; assumption.
  - apply sortedDesc_removeById; assumption.
  - apply sortedDesc_removeById; assumption.
  - assumption.
Qed.

End OrderKept.

Lemma order_kept_by_all_updates_witness :
  sortedDesc Sample.numeral [Sample.a1; Sample.b2]
  /\ admissible (orderKeeping Sample.numeral)
       [OptimisticRemove (js "a1"); FeedInsert Sample.z9;
        FeedDelete (js "b2")]
       [Sample.a1; Sample.b2]
  /\ sortedDesc Sample.numeral
       (applyOps
          [OptimisticRemove (js "a1"); FeedInsert Sample.z9;
           FeedDelete (js "b2")]
          [Sample.a1; Sample.b2]).
Proof.
  assert (Hab : newerOrEqual Sample.numeral Sample.a1 Sample.b2)
    by (apply Z.leb_le; vm_compute; reflexivity).
  assert (Hzb : newerOrEqual Sample.numeral Sample.z9 Sample.b2)
    by (apply Z.leb_le; vm_compute; reflexivity).
  assert (Hinit : sortedDesc Sample.numeral [Sample.a1; Sample.b2])
    by (repeat constructor; exact Hab).
  assert (Hops : admissible (orderKeeping Sample.numeral)
                   [OptimisticRemove (js "a1"); FeedInsert Sample.z9;
                    FeedDelete (js "b2")]
                   [Sample.a1; Sample.b2]).
  { simpl; repeat split; constructor.
    vm_compute removeById; repeat constructor; exact Hzb. }
  split; [exact Hinit|]; split; [exact Hops|].
  exact (@order_kept_by_all_updates Sample.numeral _ _ Hinit Hops).
Defined.

(** X8 — the ids of the store stay pairwise different along any sequence of
    updates in which no create response brings an id the store already
    holds when it is applied. *)
Theorem ids_stay_unique_without_late_response (ops : list StoreOp) :
  forall init : list Bookmark.t,
    uniqueIds init -> admissible freshCreateOp ops init ->
    uniqueIds (applyOps ops init).
Proof. exact (@uniqueIds_freshCreate ops). Qed.

Lemma ids_stay_unique_without_late_response_witness :
  uniqueIds [Sample.b2]
  /\ admissible freshCreateOp
       [CreateSucceeded Sample.a1; FeedInsert Sample.a1;
        OptimisticRemove (js "b2"); FeedDelete (js "b2")]
       [Sample.b2]
  /\ uniqueIds
       (applyOps
          [CreateSucceeded Sample.a1; FeedInsert Sample.a1;
           OptimisticRemove (js "b2"); FeedDelete (js "b2")]
          [Sample.b2]).
Proof.
  assert (Hinit : uniqueIds [Sample.b2]).
  { unfold uniqueIds; simpl; constructor; [intros []|constructor]. }
  assert (Hops : admissible freshCreateOp
                   [CreateSucceeded Sample.a1; FeedInsert Sample.a1;
                    OptimisticRemove (js "b2"); FeedDelete (js "b2")]
                   [Sample.b2]).
  { simpl; repeat split; constructor.
    vm_compute; intros [E | []]; discriminate E. }
  split; [exact Hinit|]; split; [exact Hops|].
  exact (@ids_stay_unique_without_late_response _ _ Hinit Hops).
Defined.

(** ** What [handleAddBookmark] sends *)

Lemma trimStart_idempotent (s : jsstring) :
  JsString.trimStart (JsString.trimStart s) = JsString.trimStart s.
Proof.
  induction s as [|c s IH]; simpl; [reflexivity|].
  destruct (JsString.isWhiteSpace c) eqn:E; [assumption|].
  simpl; rewrite E; reflexivity.
Qed.

Lemma trimStart_head (s t : jsstring) (c : N) :
  JsString.trimStart s = c :: t -> JsString.isWhiteSpace c = false.
Proof.
  induction s as [|d s IH]; simpl; [discriminate|].
  destruct (JsString.isWhiteSpace d) eqn:E; [assumption|].
  intros Heq; injection Heq as <- _; assumption.
Qed.

Lemma trimStart_snoc (l : jsstring) (c : N) :
  JsString.isWhiteSpace c = false ->
  JsString.trimStart (l ++ [c]) = JsString.trimStart l ++ [c].
Proof.
  intros Hc; induction l as [|d l IH]; simpl.
  - rewrite Hc; reflexivity.
  - destruct (JsString.isWhiteSpace d); [assumption | reflexivity].
Qed.

Lemma trimEnd_cons (c : N) (t : jsstring) :
  JsString.isWhiteSpace c = false ->
  JsString.trimEnd (c :: t) = c :: JsString.trimEnd t.
Proof.
  intros Hc; unfold JsString.trimEnd; simpl.
  rewrite trimStart_snoc by assumption.
  rewrite rev_app_distr; reflexivity.
Qed.

Lemma trimEnd_idempotent (s : jsstring) :
  JsString.trimEnd (JsString.trimEnd s) = JsString.trimEnd s.
Proof.
  unfold JsString.trimEnd.
  rewrite rev_involutive, trimStart_idempotent; reflexivity.
Qed.

Lemma trim_idempotent (s : jsstring) :
  JsString.trim (JsString.trim s) = JsString.trim s.
Proof.
  unfold JsString.trim.
  destruct (JsString.trimStart s) as [|c t] eqn:E; [reflexivity|].
  pose proof (@trimStart_head s t c E) as Hc.
  rewrite (@trimEnd_cons c t Hc); simpl; rewrite Hc.
  rewrite (@trimEnd_cons c _ Hc), trimEnd_idempotent; reflexivity.
Qed.

Lemma handleAddBookmark_sent `{Platform} (user : User.t)
  (title url : jsstring) (w : World) (st : State) :
  snd (run w (handleAddBookmark user title url) st)
  = match JsString.trim title, JsString.trim url with
    | _ :: _, _ :: _ =>
        match URL_new (JsString.trim url) with
        | Some _ =>
            [InsertRequest
               (NewRow.mk (JsString.trim title) (JsString.trim url)
                  (User.id user))]
        | None => []
        end
    | _, _ => []
    end.
Proof.
  unfold handleAddBookmark; simpl.
  destruct (JsString.trim title) as [|c t]; simpl; [reflexivity|].
  destruct (JsString.trim url) as [|d v]; simpl; [reflexivity|].
  destruct (URL_new (d :: v)) as [u|]; simpl; [|reflexivity].
  destruct (run w _ _) as [st' sent] eqn:Erun; simpl.
  destruct (Postgrest.error _) in Erun; simpl in Erun;
    [|destruct (Postgrest.data _) in Erun; simpl in Erun];
    injection Erun as _ <-; reflexivity.
Qed.

(** X9 — whatever is typed and whatever the backend answers,
    [handleAddBookmark] sends at most one request, and a request it sends
    is an insert whose [user_id] is the id of the user of the session, whose
    title and url are not empty and carry no white space at either end, and
    whose url the URL constructor accepts. *)
Theorem handleAddBookmark_sends_clean_rows `{Platform} (user : User.t)
  (title url : jsstring) (w : World) (st : State) (r : Request) :
  In r (snd (run w (handleAddBookmark user title url) st)) ->
  snd (run w (handleAddBookmark user title url) st) = [r]
  /\ exists row : NewRow.t,
       r = InsertRequest row
       /\ NewRow.user_id row = User.id user
       /\ NewRow.title row <> [] /\ NewRow.url row <> []
       /\ JsString.trim (NewRow.title row) = NewRow.title row
       /\ JsString.trim (NewRow.url row) = NewRow.url row
       /\ URL_new (NewRow.url row) <> None.
Proof.
  rewrite handleAddBookmark_sent.
  destruct (JsString.trim title) as [|c t] eqn:Et; [intros []|].
  destruct (JsString.trim url) as [|d v] eqn:Ev; [intros []|].
  destruct (URL_new (d :: v)) as [u|] eqn:Eu; [|intros []].
  intros [<- | []]; split; [reflexivity|].
  eexists; split; [reflexivity|]; simpl.
  rewrite <- Et, <- Ev, !trim_idempotent, Et, Ev, Eu.
  repeat split; discriminate.
Qed.

Lemma handleAddBookmark_sends_clean_rows_witness :
  In (InsertRequest
        (NewRow.mk (js "Docs") (js "https://example.com/docs") (js "u1")))
    (snd (run Sample.succeeding
            (@handleAddBookmark Sample.schemePlatform Sample.alice
               (js "  Docs ") (js " https://example.com/docs  "))
            (initialState [])))
  /\ snd (run Sample.succeeding
            (@handleAddBookmark Sample.schemePlatform Sample.alice
               (js "  Docs ") (js " https://example.com/docs  "))
            (initialState []))
     = [InsertRequest
          (NewRow.mk (js "Docs") (js "https://example.com/docs") (js "u1"))].
Proof.
  assert (Hin :
            In (InsertRequest
                  (NewRow.mk (js "Docs") (js "https://example.com/docs")
                     (js "u1")))
              (snd (run Sample.succeeding
                      (@handleAddBookmark Sample.schemePlatform Sample.alice
                         (js "  Docs ") (js " https://example.com/docs  "))
                      (initialState []))))
    by (left; reflexivity).
  split; [exact Hin|].
  exact (proj1 (@handleAddBookmark_sends_clean_rows Sample.schemePlatform
                  Sample.alice (js "  Docs ")
                  (js " https://example.com/docs  ") Sample.succeeding
                  (initialState []) _ Hin)).
Defined.

(** X10 — which message a refused submission shows: the "required" one
    as soon as the trimmed title or the trimmed location is empty, even if
    the location is no URL either; the "valid URL" one only when both are
    non-empty and the URL constructor refuses the trimmed location. *)
Theorem validation_message_is_determined `{Platform} (user : User.t)
  (title url : jsstring) (w : World) (st : State) :
  (JsString.trim title = [] \/ JsString.trim url = [] ->
   error (fst (run w (handleAddBookmark user title url) st))
   = Some (js "Both title and URL are required."))
  /\ (JsString.trim title <> [] /\ JsString.trim url <> []
      /\ URL_new (JsString.trim url) = None ->
      error (fst (run w (handleAddBookmark user title url) st))
      = Some (js "Please enter a valid URL (e.g. https://example.com).")).
Proof.
  unfold handleAddBookmark; simpl.
  destruct (JsString.trim title) as [|c t]; simpl.
  { split; [reflexivity | intros [Hne _]; congruence]. }
  destruct (JsString.trim url) as [|d v]; simpl.
  { split; [reflexivity | intros [_ [Hne _]]; congruence]. }
  split.
  - intros [E | E]; discriminate E.
  - intros [_ [_ Hparse]]; rewrite Hparse; reflexivity.
Qed.

(** ** The form while and after a submission *)

(** X11 — the form is never left disabled: however [handleAddBookmark]
    ends, [submitting] is false.  While the insert is awaited [submitting]
    is true and the previous error is cleared, and whatever the answer, the
    continuation finishes without a further request and with [submitting]
    false. *)
Theorem submitting_is_always_released `{Platform} (user : User.t)
  (title url : jsstring) (w : World) (st : State) :
  submitting (fst (run w (handleAddBookmark user title url) st)) = false
  /\ (forall (row : NewRow.t) (k : InsertResponse -> Handler) (st1 : State),
         runSync (handleAddBookmark user title url) st = (st1, OnInsert row k) ->
         submitting st1 = true /\ error st1 = None
         /\ forall (answer : InsertResponse) (st2 : State),
              snd (runSync (k answer) st2) = Finished
              /\ submitting (fst (runSync (k answer) st2)) = false).
Proof.
  unfold handleAddBookmark; simpl.
  destruct (JsString.not (JsString.trim title)
            || JsString.not (JsString.trim url)); simpl.
  { split; [reflexivity | intros row k st1 E; discriminate E]. }
  destruct (URL_new (JsString.trim url)) as [u|]; simpl.
  - split.
    + destruct (run w _ _) as [st' sent] eqn:Erun; simpl.
      destruct (Postgrest.error _) in Erun; simpl in Erun;
        [|destruct (Postgrest.data _) in Erun; simpl in Erun];
        injection Erun as <- _; reflexivity.
    + intros row k st1 E; injection E as <- _ <-.
      split; [reflexivity|]; split; [reflexivity|].
      intros answer st2.
      destruct (Postgrest.error answer); simpl; [auto|].
      destruct (Postgrest.data answer); simpl; auto.
  - split; [reflexivity | intros row k st1 E; discriminate E].
Qed.

(** X12 — what is left in the two inputs after a submission, nothing else
    running meanwhile: a create that succeeds (a row and no error) empties
    both and leaves no error; in every other case (refused locally, error
    answer, answer without row) both keep exactly what was typed, white
    space included. *)
Theorem inputs_after_submission `{Platform} (user : User.t) (w : World)
  (st : State) :
  quiet w ->
  let row := NewRow.mk (JsString.trim (title st)) (JsString.trim (url st))
               (User.id user) in
  let st' := fst (run w (handleAddBookmark user (title st) (url st)) st) in
  let accepted :=
    JsString.trim (title st) <> [] /\ JsString.trim (url st) <> []
    /\ URL_new (JsString.trim (url st)) <> None in
  (accepted ->
   forall data : Bookmark.t,
     insertAnswer w row = Postgrest.mk (Some data) None ->
     title st' = [] /\ url st' = [] /\ error st' = None)
  /\ (~ accepted \/ Postgrest.error (insertAnswer w row) <> None
      \/ Postgrest.data (insertAnswer w row) = None ->
      title st' = title st /\ url st' = url st).
Proof.
  intros Hquiet row st' accepted; subst st' accepted row.
  unfold handleAddBookmark; simpl.
  destruct (JsString.trim (title st)) as [|c t] eqn:Et; simpl.
  { split; [intros [Hne _]; congruence | auto]. }
  destruct (JsString.trim (url st)) as [|d v] eqn:Ev; simpl.
  { split; [intros [_ [Hne _]]; congruence | auto]. }
  destruct (URL_new (d :: v)) as [u|] eqn:Eu; simpl.
  2:{ split; [intros [_ [_ Hne]]; congruence | auto]. }
  rewrite Hquiet.
  destruct (insertAnswer w _) as [data err]; simpl.
  destruct err as [e|]; [|destruct data as [b|]]; simpl; split;
    try (intros _ data' Hdata; discriminate Hdata); auto.
  intros [Hrej | [Herr | Hdata]]; try congruence.
  exfalso; apply Hrej; repeat split; discriminate.
Qed.

Lemma inputs_after_submission_witness :
  let st := setUrl (js " https://example.com/docs ")
              (setTitle (js "Docs ") (initialState [Sample.b2])) in
  quiet Sample.failing
  /\ title (fst (run Sample.failing
                   (@handleAddBookmark Sample.schemePlatform Sample.alice
                      (title st) (url st)) st))
     = js "Docs "
  /\ url (fst (run Sample.failing
                 (@handleAddBookmark Sample.schemePlatform Sample.alice
                    (title st) (url st)) st))
     = js " https://example.com/docs ".
Proof.
  intros st.
  assert (Hquiet : quiet Sample.failing) by (intros r s; reflexivity).
  split; [exact Hquiet|].
  apply (proj2 (@inputs_after_submission Sample.schemePlatform Sample.alice
                  Sample.failing st Hquiet)).
  right; left; vm_compute; discriminate.
Defined.

(** ** [handleDelete] from click to end *)

(** X13 — however the backend answers, [handleDelete] ends with
    [deletingId] cleared and has sent the delete, followed by one ordered
    select exactly when the delete was answered with an error.  It never
    clears [error]: after a delete that succeeds, nothing else running
    meanwhile, [error] is what it was before the click, no entry of
    [bookmarks] has the id, and the entries left are exactly those the list
    had with another id. *)
Theorem handleDelete_lifecycle (id : jsstring) (w : World) (st : State) :
  let order := Postgrest.mkOrder (js "created_at") false in
  let result := run w (handleDelete id) st in
  deletingId (fst result) = None
  /\ (snd result
      = match Postgrest.error (deleteAnswer w id) with
        | None => [DeleteRequest id]
        | Some _ => [DeleteRequest id; SelectRequest order]
        end)
  /\ (Postgrest.error (deleteAnswer w id) = None -> quiet w ->
      error (fst result) = error st
      /\ bookmarks (fst result) = removeById id (bookmarks st)
      /\ ~ hasId id (bookmarks (fst result))
      /\ (forall b : Bookmark.t,
             In b (bookmarks (fst result))
             <-> In b (bookmarks st) /\ Bookmark.id b <> id)).
Proof.
  intros order result; subst result order.
  unfold handleDelete; simpl.
  destruct (Postgrest.error (deleteAnswer w id)) as [e|]; simpl.
  - destruct (Postgrest.data (selectAnswer w _)); simpl;
      repeat split; discriminate.
  - split; [reflexivity|]; split; [reflexivity|].
    intros _ Hquiet; rewrite Hquiet; simpl.
    split; [reflexivity|]; split; [reflexivity|]; split.
    + rewrite hasId_removeById; intros [_ Hne]; apply Hne; reflexivity.
    + intros b; unfold removeById; rewrite filter_In.
      rewrite negb_true_iff, eqb_false_iff; reflexivity.
Qed.

Lemma handleDelete_lifecycle_witness :
  let st := setError (Some (js "earlier failure"))
              (initialState [Sample.a1; Sample.b2]) in
  deletingId (fst (run Sample.succeeding (handleDelete (js "a1")) st)) = None
  /\ snd (run Sample.succeeding (handleDelete (js "a1")) st)
     = [DeleteRequest (js "a1")]
  /\ error (fst (run Sample.succeeding (handleDelete (js "a1")) st))
     = Some (js "earlier failure")
  /\ bookmarks (fst (run Sample.succeeding (handleDelete (js "a1")) st))
     = [Sample.b2].
Proof.
  intros st.
  destruct (@handleDelete_lifecycle (js "a1") Sample.succeeding st)
    as [Hcleared [Hsent Hok]].
  destruct (Hok eq_refl (fun r s => eq_refl)) as [Herror [Hstore _]].
  split; [exact Hcleared|]; split; [exact Hsent|].
  split; [exact Herror | exact Hstore].
Defined.

(** X14 — right after the click, when the synchronous prefix of
    [handleDelete] has run and the delete is pending, [deletingId] is the
    id and no item of the list has that key: no delete button is disabled,
    no spinner is shown.  Realtime events delivered while the delete is
    awaited keep [deletingId]; during that time an item is shown disabled
    and spinning exactly when its key is the id, which happens when an
    INSERT event brings a row with that id: the row is put back at the head
    of the list, disabled and spinning. *)
Theorem deleting_row_shows_only_if_readded `{Hostnames} `{Dates}
  (user : User.t) (id : jsstring) (st : State) :
  let awaiting := fst (runSync (handleDelete id) st) in
  (deletingId awaiting = Some id
   /\ Forall
        (fun item =>
           key item <> id /\ deleteDisabled item = false
           /\ spinning item = false)
        (items (listing (render user awaiting))))
  /\ (forall events : list Payload,
         let during :=
           fold_left
             (fun s p =>
                match eventType p with
                | INSERT => onInsert p s
                | DELETE => onDelete p s
                end)
             events awaiting in
         deletingId during = Some id
         /\ Forall
              (fun item =>
                 (spinning item = true <-> key item = id)
                 /\ deleteDisabled item = spinning item)
              (items (listing (render user during))))
  /\ (forall x : Bookmark.t,
         Bookmark.id x = id ->
         exists rest : list Item,
           items
             (listing (render user (onInsert (mkPayload INSERT x) awaiting)))
           = renderItem (Some id) x :: rest
           /\ key (renderItem (Some id) x) = id
           /\ deleteDisabled (renderItem (Some id) x) = true
           /\ spinning (renderItem (Some id) x) = true).
Proof.
  unfold handleDelete; simpl; split; [|split].
  - split; [reflexivity|].
    assert (Hall : Forall
                     (fun item =>
                        key item <> id /\ deleteDisabled item = false
                        /\ spinning item = false)
                     (map (renderItem (Some id))
                        (removeById id (bookmarks st)))).
    { apply Forall_forall; intros item Hin.
      apply in_map_iff in Hin; destruct Hin as [b [<- Hb]].
      apply filter_In in Hb; destruct Hb as [_ Hne].
      apply negb_true_iff, eqb_false_iff in Hne.
      assert (Hoff : JsString.eqb id (Bookmark.id b) = false)
        by (apply eqb_false_iff; congruence).
      simpl; rewrite Hoff; auto. }
    unfold render; simpl.
    destruct (removeById id (bookmarks st)); [constructor | exact Hall].
  - intros events.
    set (awaiting := setBookmarks (removeById id)
                       (setDeletingId (Some id) st)).
    assert (Hkept : forall (evs : list Payload) (s : State),
               deletingId
                 (fold_left
                    (fun s p =>
                       match eventType p with
                       | INSERT => onInsert p s
                       | DELETE => onDelete p s
                       end)
                    evs s)
               = deletingId s).
    { induction evs as [|p evs IH]; intros s; simpl; [reflexivity|].
      rewrite IH; destruct (eventType p); reflexivity. }
    cbv zeta; split; [rewrite Hkept; reflexivity|].
    unfold render; cbn [listing].
    rewrite Hkept; cbn [deletingId awaiting setBookmarks].
    destruct (bookmarks _) as [|b l]; [constructor|].
    cbn [items]; apply Forall_forall; intros item Hin.
    apply in_map_iff in Hin; destruct Hin as [c [<- _]].
    cbn [renderItem spinning key deleteDisabled isDeleting].
    split; [|reflexivity].
    simpl; rewrite eqb_true_iff; split; congruence.
  - intros x Hx; unfold render, onInsert; simpl.
    rewrite insertIfAbsent_absent.
    + cbn [items map]; eexists; split; [reflexivity|].
      simpl; rewrite Hx, eqb_refl; auto.
    + rewrite Hx, hasId_removeById; intros [_ Hne]; apply Hne; reflexivity.
Qed.

Lemma deleting_row_shows_only_if_readded_witness :
  exists rest : list Item,
    items
      (listing
         (@render Demo.hostnames Demo.dates Sample.alice
            (onInsert (mkPayload INSERT Sample.a1)
               (fst (runSync (handleDelete (js "a1"))
                       (initialState [Sample.a1; Sample.b2]))))))
    = @renderItem Demo.hostnames Demo.dates (Some (js "a1")) Sample.a1 :: rest
    /\ key (@renderItem Demo.hostnames Demo.dates (Some (js "a1")) Sample.a1)
       = js "a1"
    /\ deleteDisabled
         (@renderItem Demo.hostnames Demo.dates (Some (js "a1")) Sample.a1)
       = true
    /\ spinning
         (@renderItem Demo.hostnames Demo.dates (Some (js "a1")) Sample.a1)
       = true.
Proof.
  exact (proj2 (proj2 (@deleting_row_shows_only_if_readded Demo.hostnames
                         Demo.dates Sample.alice (js "a1")
                         (initialState [Sample.a1; Sample.b2])))
           Sample.a1 eq_refl).
Defined.

(** ** What the user is shown *)

(** X15 — the message shown after a create that the backend refuses is the
    message of the error, unless that message is empty: then no error
    paragraph is rendered at all. *)
Theorem shown_error_after_failed_create `{Platform} `{Hostnames} `{Dates}
  (user : User.t) (title url : jsstring) (w : World) (st : State)
  (u : URL.t) (insertError : Postgrest.Error) :
  JsString.trim title <> [] ->
  JsString.trim url <> [] ->
  URL_new (JsString.trim url) = Some u ->
  Postgrest.error
    (insertAnswer w
       (NewRow.mk (JsString.trim title) (JsString.trim url) (User.id user)))
  = Some insertError ->
  errorText (render user (fst (run w (handleAddBookmark user title url) st)))
  = match Postgrest.message insertError with
    | [] => None
    | c :: msg => Some (c :: msg)
    end.
Proof.
  intros Ht Hu Hparse Herr.
  unfold handleAddBookmark; simpl.
  destruct (JsString.trim title) as [|c t] eqn:Et; [congruence|].
  destruct (JsString.trim url) as [|d v] eqn:Ev; [congruence|].
  simpl; rewrite Hparse; simpl; rewrite Herr; reflexivity.
Qed.

Lemma shown_error_after_failed_create_witness :
  errorText
    (@render Demo.hostnames Demo.dates Sample.alice
       (fst (run Demo.mute
               (@handleAddBookmark Sample.schemePlatform Sample.alice
                  (js "Docs") (js "https://example.com/docs"))
               (initialState [Sample.b2]))))
  = None.
Proof.
  apply (@shown_error_after_failed_create Sample.schemePlatform
           Demo.hostnames Demo.dates Sample.alice (js "Docs")
           (js "https://example.com/docs") Demo.mute
           (initialState [Sample.b2]) (URL.mk (js "https:"))
           (Postgrest.mkError []));
    vm_compute; (discriminate || reflexivity).
Defined.

(** ** The dashboard page and the component it mounts *)

(** X16 — when the first fetch of the dashboard page brings no rows (it
    failed), the component is mounted for the signed-in user and renders
    the empty placeholder with a count of zero and no error text. *)
Theorem failed_first_fetch_looks_empty `{Hostnames} `{Dates}
  (user : AuthUser.t) (fetch : Postgrest.Order -> SelectResponse) :
  Postgrest.data (fetch (Postgrest.mkOrder (js "created_at") false)) = None ->
  exists (u : User.t) (st : State),
    mounted (fst (DashboardPage (Some user) fetch)) = Some (u, st)
    /\ User.id u = AuthUser.id user
    /\ count (render u st) = 0%nat
    /\ listing (render u st)
       = Placeholder (js "No bookmarks yet. Add your first one above!")
    /\ errorText (render u st) = None.
Proof.
  intros Hnone; unfold DashboardPage, initialBookmarks; simpl.
  rewrite Hnone; simpl.
  eexists; eexists; split; [reflexivity|]; simpl; auto.
Qed.

Lemma failed_first_fetch_looks_empty_witness :
  exists (u : User.t) (st : State),
    mounted
      (fst (DashboardPage (Some Demo.carol) (selectAnswer Sample.offline)))
    = Some (u, st)
    /\ User.id u = AuthUser.id Demo.carol
    /\ count (@render Demo.hostnames Demo.dates u st) = 0%nat
    /\ listing (@render Demo.hostnames Demo.dates u st)
       = Placeholder (js "No bookmarks yet. Add your first one above!")
    /\ errorText (@render Demo.hostnames Demo.dates u st) = None.
Proof.
  apply (@failed_first_fetch_looks_empty Demo.hostnames Demo.dates
           Demo.carol (selectAnswer Sample.offline)).
  reflexivity.
Defined.

(** X17 — the id of the signed-in user is the one the component works
    under: a visitor who is not signed in is redirected to [/login] with no
    bookmark fetched and no component mounted; for a signed-in user both
    bindings of the channel are filtered by [user_id=eq.] followed by that
    user's id, and every request [handleAddBookmark] sends is an insert
    whose [user_id] is that id. *)
Theorem signed_in_user_scopes_the_component `{Platform}
  (fetch : Postgrest.Order -> SelectResponse) :
  DashboardPage None fetch = (Redirect (js "/login"), [])
  /\ forall user : AuthUser.t,
       exists (u : User.t) (st : State),
         mounted (fst (DashboardPage (Some user) fetch)) = Some (u, st)
         /\ Forall
              (fun b =>
                 filter_ (changes b) = js "user_id=eq." ++ AuthUser.id user)
              (channel u)
         /\ forall (title url : jsstring) (w : World) (st' : State)
              (r : Request),
              In r (snd (run w (handleAddBookmark u title url) st')) ->
              exists row : NewRow.t,
                r = InsertRequest row
                /\ NewRow.user_id row = AuthUser.id user.
Proof.
  split; [reflexivity|].
  intros user.
  exists (User.mk (AuthUser.id user) (AuthUser.email user)
            (match AuthUser.full_name user with
             | Some full_name => full_name
             | None => AuthUser.email user
             end)).
  eexists; split; [reflexivity|]; split.
  - repeat constructor.
  - intros title url w st' r; rewrite handleAddBookmark_sent.
    destruct (JsString.trim title); [intros []|].
    destruct (JsString.trim url); [intros []|].
    destruct (URL_new _); [|intros []].
    intros [<- | []]; eexists; split; reflexivity.
Qed.

(** X18 — the list rendered is the store: one item per bookmark, in the
    order of the store, keyed by the id and linking to the url of its
    bookmark, and the count shown is the number of items.  The keys of the
    rendered items are therefore pairwise different exactly when the ids of
    the store are. *)
Theorem rendered_list_is_the_store `{Hostnames} `{Dates} (user : User.t)
  (st : State) :
  map key (items (listing (render user st))) = ids (bookmarks st)
  /\ map href (items (listing (render user st)))
     = map Bookmark.url (bookmarks st)
  /\ count (render user st)
     = List.length (items (listing (render user st)))
  /\ (NoDup (map key (items (listing (render user st))))
      <-> uniqueIds (bookmarks st)).
Proof.
  assert (Hkeys : map key (items (listing (render user st)))
                  = ids (bookmarks st)).
  { unfold render, ids; simpl.
    destruct (bookmarks st) as [|b l]; [reflexivity|].
    cbn [items]; rewrite map_map; reflexivity. }
  split; [exact Hkeys|]; split; [|split].
  - unfold render; simpl.
    destruct (bookmarks st) as [|b l]; [reflexivity|].
    cbn [items]; rewrite map_map; reflexivity.
  - unfold render; simpl.
    destruct (bookmarks st) as [|b l]; [reflexivity|].
    cbn [items]; rewrite length_map; reflexivity.
  - rewrite Hkeys; reflexivity.
Qed.

(** ** Events of the owner *)

Lemma filteringRealtime_streamsExactly :
  @streamsExactly Sample.filteringRealtime.
Proof.
  intros f p; simpl; rewrite andb_true_iff, eqb_true_iff.
  destruct (event f), (eventType p); simpl; split;
    intros [E F]; (discriminate E || auto).
Qed.

(** X19 — with a server that streams exactly the events matching a
    binding, an event on a row of the owner of the session runs one
    callback and only one: an INSERT runs the INSERT callback (the row is
    put at the head unless its id is held), a DELETE runs the DELETE
    callback (the entries with the id are removed). *)
Theorem own_event_runs_its_callback `{Realtime} (user : User.t)
  (payload : Payload) (st : State) :
  streamsExactly ->
  Bookmark.user_id (record payload) = User.id user ->
  deliver (channel user) payload st
  = match eventType payload with
    | INSERT => onInsert payload st
    | DELETE => onDelete payload st
    end.
Proof.
  intros Hexact Hown.
  assert (Hstream : forall e : EventType,
             streams
               (mkChangeFilter e (js "public") (js "bookmarks")
                  (js "user_id=eq." ++ User.id user))
               payload
             = Sample.eventTypeEqb e (eventType payload)).
  { intros e.
    destruct (streams _ payload) eqn:Es.
    - apply Hexact in Es; destruct Es as [Ee _]; simpl in Ee.
      rewrite <- Ee; destruct e; reflexivity.
    - destruct (Sample.eventTypeEqb e (eventType payload)) eqn:Ee;
        [|reflexivity].
      assert (Hyes : streams
                       (mkChangeFilter e (js "public") (js "bookmarks")
                          (js "user_id=eq." ++ User.id user))
                       payload = true).
      { apply Hexact; cbn [event filter_]; rewrite Hown; split;
          [|reflexivity].
        destruct e, (eventType payload); (discriminate Ee || reflexivity). }
      congruence. }
  unfold deliver, channel; cbn [fold_left changes callback].
  rewrite !Hstream.
  destruct (eventType payload); reflexivity.
Qed.

Lemma own_event_runs_its_callback_witness :
  Bookmark.user_id (record (mkPayload INSERT Sample.a1))
  = User.id Sample.alice
  /\ @deliver Sample.filteringRealtime (channel Sample.alice)
       (mkPayload INSERT Sample.a1) (initialState [Sample.b2])
     = onInsert (mkPayload INSERT Sample.a1) (initialState [Sample.b2]).
Proof.
  split; [reflexivity|].
  exact (@own_event_runs_its_callback Sample.filteringRealtime Sample.alice
           (mkPayload INSERT Sample.a1) (initialState [Sample.b2])
           filteringRealtime_streamsExactly eq_refl).
Defined.
